(** * Share-link codec, document composer and template loader of the
      live HTML/CSS/JS playground (src/App.js)

    The component keeps three text buffers ([htmlCode], [cssCode],
    [jsCode]) and a derived preview document ([srcDoc]).  This file embeds
    the code of [App] that computes on them:

    - the effect that recomputes [srcDoc] (App.js, lines 179-193),
    - the effect that reads the buffers from the page's query string
      (lines 197-216),
    - [generateShareUrl] (lines 220-228),
    - [loadTemplate] (lines 231-243),

    together with the platform functions these call: [btoa] and [atob]
    (HTML standard, forgiving-base64), [encodeURIComponent] and
    [decodeURIComponent] (ECMAScript, abstract operations Encode and
    Decode), [URLSearchParams] (URL standard, application/x-www-form-urlencoded
    parsing) and the [search] component of a URL.

    JavaScript strings are sequences of 16-bit code units; they are lists
    of [N] here, and every platform function is written on code units as its
    standard words it. *)

From Stdlib Require Import String Ascii List NArith ZArith Bool Lia.
Import ListNotations.

Local Open Scope N_scope.

(** [lia] on [N] with division and remainder by constants. *)
Ltac Zify.zify_post_hook ::= Z.to_euclidean_division_equations.

(* ================================================================= *)
(** ** JavaScript strings and values *)

Definition code_unit := N.
Definition jsstring := list code_unit.

(** A string literal of the source, as code units (the literals of App.js
    are ASCII). *)
Definition lit (s : string) : jsstring :=
  map N_of_ascii (list_ascii_of_string s).

(** The double-quote character, for literals that contain one. *)
Definition dq : jsstring := [34].

(** Several source lines joined by line feeds (a multi-line template
    literal). *)
Fixpoint lines (l : list jsstring) : jsstring :=
  match l with
  | [] => []
  | [x] => x
  | x :: rest => x ++ [10] ++ lines rest
  end.

(** Strict equality [===] of two strings. *)
Fixpoint jsstring_eqb (a b : jsstring) : bool :=
  match a, b with
  | [], [] => true
  | x :: a', y :: b' => (x =? y) && jsstring_eqb a' b'
  | _, _ => false
  end.

(** The values a buffer can hold: a string, or [undefined] (what reading a
    property that does not exist gives). *)
Inductive value : Type :=
| Undefined
| Str (s : jsstring).

(** ToString, as applied by a template literal and by the conversion of an
    argument to a DOMString. *)
Definition ToString (v : value) : jsstring :=
  match v with
  | Undefined => lit "undefined"
  | Str s => s
  end.

(** Exceptions the platform functions throw. *)
Inductive exn : Type :=
| InvalidCharacterError   (* DOMException of btoa and atob *)
| URIError.               (* of encodeURIComponent and decodeURIComponent *)

(** The completion of a call: a normal result or a thrown exception. *)
Inductive completion (A : Type) : Type :=
| Normal (a : A)
| Throw (e : exn).
Arguments Normal {A} a.
Arguments Throw {A} e.

Definition cbind {A B} (c : completion A) (k : A -> completion B) : completion B :=
  match c with
  | Normal a => k a
  | Throw e => Throw e
  end.

Definition cmap {A B} (f : A -> B) (c : completion A) : completion B :=
  cbind c (fun a => Normal (f a)).

(* ================================================================= *)
(** ** Character classes *)

Definition in_range (lo hi c : N) : bool := (lo <=? c) && (c <=? hi).

Definition is_upper (c : code_unit) : bool := in_range 65 90 c.
Definition is_lower (c : code_unit) : bool := in_range 97 122 c.
Definition is_digit (c : code_unit) : bool := in_range 48 57 c.
Definition is_alnum (c : code_unit) : bool := is_upper c || is_lower c || is_digit c.

(** ASCII whitespace of the Infra standard: TAB, LF, FF, CR, SPACE. *)
Definition is_ascii_whitespace (c : code_unit) : bool :=
  (c =? 9) || (c =? 10) || (c =? 12) || (c =? 13) || (c =? 32).

(* ================================================================= *)
(** ** btoa and atob: forgiving-base64 *)

Module Base64.

(** The base64 alphabet: the character of a 6-bit group. *)
Definition char_of (n : N) : code_unit :=
  if n <? 26 then 65 + n
  else if n <? 52 then 97 + (n - 26)
  else if n <? 62 then 48 + (n - 52)
  else if n =? 62 then 43
  else 47.

(** The 6-bit group of a character of the alphabet. *)
Definition index_of (c : code_unit) : option N :=
  if is_upper c then Some (c - 65)
  else if is_lower c then Some (c - 97 + 26)
  else if is_digit c then Some (c - 48 + 52)
  else if c =? 43 then Some 62
  else if c =? 47 then Some 63
  else None.

Definition in_alphabet (c : code_unit) : bool :=
  match index_of c with Some _ => true | None => false end.

(** forgiving-base64 encode: three bytes give four characters; one or two
    remaining bytes are padded with [=]. *)
Fixpoint encode (bytes : list N) : jsstring :=
  match bytes with
  | [] => []
  | [a] =>
      [char_of (a / 4); char_of ((a mod 4) * 16); 61; 61]
  | [a; b] =>
      [char_of (a / 4); char_of ((a mod 4) * 16 + b / 16);
       char_of ((b mod 16) * 4); 61]
  | a :: b :: c :: rest =>
      [char_of (a / 4); char_of ((a mod 4) * 16 + b / 16);
       char_of ((b mod 16) * 4 + c / 64); char_of (c mod 64)]
      ++ encode rest
  end.

Definition ends_with_equals (data : jsstring) : bool := last data 0 =? 61.

(** Step 2 of forgiving-base64 decode: when the length is a multiple of
    four, one or two [=] at the end are removed. *)
Definition strip_padding (data : jsstring) : jsstring :=
  if (Nat.modulo (length data) 4 =? 0)%nat then
    if ends_with_equals data then
      let data' := removelast data in
      if ends_with_equals data' then removelast data' else data'
    else data
  else data.

(** Steps 5 to 9: every four 6-bit groups give three bytes; of a rest of
    two groups the last four bits are discarded, of a rest of three the
    last two. *)
Fixpoint decode_groups (l : list N) : list N :=
  match l with
  | s1 :: s2 :: s3 :: s4 :: rest =>
      [s1 * 4 + s2 / 16; (s2 mod 16) * 16 + s3 / 4; (s3 mod 4) * 64 + s4]
      ++ decode_groups rest
  | [s1; s2; s3] => [s1 * 4 + s2 / 16; (s2 mod 16) * 16 + s3 / 4]
  | [s1; s2] => [s1 * 4 + s2 / 16]
  | _ => []
  end.

(** The 6-bit groups of a string, when all its characters are in the
    alphabet (step 4 fails otherwise). *)
Fixpoint indices (data : jsstring) : option (list N) :=
  match data with
  | [] => Some []
  | c :: rest =>
      match index_of c, indices rest with
      | Some i, Some l => Some (i :: l)
      | _, _ => None
      end
  end.

(** forgiving-base64 decode; [None] is failure. *)
Definition decode (data : jsstring) : option (list N) :=
  let data := filter (fun c => negb (is_ascii_whitespace c)) data in
  let data := strip_padding data in
  if (Nat.modulo (length data) 4 =? 1)%nat then None
  else option_map decode_groups (indices data).

End Base64.

(** [btoa(data)]: throws if a code unit is above U+00FF, else the base64 of
    the code units taken as bytes. *)
Definition btoa (data : jsstring) : completion jsstring :=
  if existsb (fun c => 255 <? c) data then Throw InvalidCharacterError
  else Normal (Base64.encode data).

(** [atob(data)]: throws if forgiving-base64 decode fails, else the string
    whose code units are the decoded bytes. *)
Definition atob (data : jsstring) : completion jsstring :=
  match Base64.decode data with
  | Some bytes => Normal bytes
  | None => Throw InvalidCharacterError
  end.

(* ================================================================= *)
(** ** Code points, UTF-16 and UTF-8 *)

Definition is_high_surrogate (c : code_unit) : bool := in_range 0xD800 0xDBFF c.
Definition is_low_surrogate (c : code_unit) : bool := in_range 0xDC00 0xDFFF c.
Definition is_surrogate (c : N) : bool := in_range 0xD800 0xDFFF c.

(** UTF16SurrogatePairToCodePoint. *)
Definition surrogate_pair (hi lo : code_unit) : N :=
  (hi - 0xD800) * 0x400 + (lo - 0xDC00) + 0x10000.

(** UTF16EncodeCodePoint. *)
Definition UTF16EncodeCodePoint (cp : N) : jsstring :=
  if cp <=? 0xFFFF then [cp]
  else [(cp - 0x10000) / 0x400 + 0xD800; (cp - 0x10000) mod 0x400 + 0xDC00].

(** The UTF-8 transformation of a code point into octets. *)
Definition utf8_octets (cp : N) : list N :=
  if cp <? 0x80 then [cp]
  else if cp <? 0x800 then [0xC0 + cp / 64; 0x80 + cp mod 64]
  else if cp <? 0x10000 then
    [0xE0 + cp / 4096; 0x80 + (cp / 64) mod 64; 0x80 + cp mod 64]
  else
    [0xF0 + cp / 262144; 0x80 + (cp / 4096) mod 64;
     0x80 + (cp / 64) mod 64; 0x80 + cp mod 64].

(** The scalar values of a string converted to a USVString: a surrogate
    pair is one code point, a surrogate on its own becomes U+FFFD. *)
Fixpoint scalar_values (s : jsstring) : list N :=
  match s with
  | [] => []
  | c :: rest =>
      if is_high_surrogate c then
        match rest with
        | lo :: rest' =>
            if is_low_surrogate lo then surrogate_pair c lo :: scalar_values rest'
            else 0xFFFD :: scalar_values rest
        | [] => [0xFFFD]
        end
      else if is_low_surrogate c then 0xFFFD :: scalar_values rest
      else c :: scalar_values rest
  end.

(** UTF-8 encode of a string (after conversion to a USVString). *)
Definition utf8_encode (s : jsstring) : list N :=
  flat_map utf8_octets (scalar_values s).

(** The UTF-8 decoder of the Encoding standard (UTF-8 decode without BOM):
    malformed input gives U+FFFD, never a failure. *)
Record utf8_state : Type := {
  u_code_point : N;
  u_seen : N;
  u_needed : N;
  u_lower : N;
  u_upper : N
}.

Definition utf8_init : utf8_state :=
  {| u_code_point := 0; u_seen := 0; u_needed := 0; u_lower := 0x80; u_upper := 0xBF |}.

(** The handler on a byte when no byte is needed: the code points emitted
    and the next state. *)
Definition utf8_lead (b : N) : list N * utf8_state :=
  if b <=? 0x7F then ([b], utf8_init)
  else if in_range 0xC2 0xDF b then
    ([], {| u_code_point := N.land b 0x1F; u_seen := 0; u_needed := 1;
            u_lower := 0x80; u_upper := 0xBF |})
  else if in_range 0xE0 0xEF b then
    ([], {| u_code_point := N.land b 0xF; u_seen := 0; u_needed := 2;
            u_lower := if b =? 0xE0 then 0xA0 else 0x80;
            u_upper := if b =? 0xED then 0x9F else 0xBF |})
  else if in_range 0xF0 0xF4 b then
    ([], {| u_code_point := N.land b 0x7; u_seen := 0; u_needed := 3;
            u_lower := if b =? 0xF0 then 0x90 else 0x80;
            u_upper := if b =? 0xF4 then 0x8F else 0xBF |})
  else ([0xFFFD], utf8_init).

Fixpoint utf8_decode_from (st : utf8_state) (bytes : list N) : list N :=
  match bytes with
  | [] => if u_needed st =? 0 then [] else [0xFFFD]
  | b :: rest =>
      if u_needed st =? 0 then
        let '(out, st') := utf8_lead b in out ++ utf8_decode_from st' rest
      else if negb (in_range (u_lower st) (u_upper st) b) then
        (* error; the byte is put back and read again from the initial state *)
        let '(out, st') := utf8_lead b in
        0xFFFD :: out ++ utf8_decode_from st' rest
      else
        let cp := N.lor (N.shiftl (u_code_point st) 6) (N.land b 0x3F) in
        if u_seen st + 1 =? u_needed st then cp :: utf8_decode_from utf8_init rest
        else
          utf8_decode_from
            {| u_code_point := cp; u_seen := u_seen st + 1; u_needed := u_needed st;
               u_lower := 0x80; u_upper := 0xBF |} rest
  end.

(** UTF-8 decode without BOM, as a JavaScript string. *)
Definition utf8_decode (bytes : list N) : jsstring :=
  flat_map UTF16EncodeCodePoint (utf8_decode_from utf8_init bytes).

(* ================================================================= *)
(** ** Hexadecimal digits *)

(** An uppercase hexadecimal digit. *)
Definition hex_digit (n : N) : code_unit :=
  if n <? 10 then 48 + n else 55 + n.

(** ["%"] followed by the octet as two uppercase hexadecimal digits. *)
Definition percent_escape (octet : N) : jsstring :=
  [37; hex_digit (octet / 16); hex_digit (octet mod 16)].

(** The value of a hexadecimal digit of either case. *)
Definition hex_value (c : code_unit) : option N :=
  if is_digit c then Some (c - 48)
  else if in_range 65 70 c then Some (c - 55)
  else if in_range 97 102 c then Some (c - 87)
  else None.

(** ParseHexOctet on two code units. *)
Definition ParseHexOctet (h1 h2 : code_unit) : option N :=
  match hex_value h1, hex_value h2 with
  | Some a, Some b => Some (a * 16 + b)
  | _, _ => None
  end.

(* ================================================================= *)
(** ** encodeURIComponent and decodeURIComponent *)

Module URI.

(** The characters Encode leaves as they are: the ASCII word characters
    and [-.!~*'()]. *)
Definition unescaped (c : code_unit) : bool :=
  is_alnum c || (c =? 95)                                (* _ *)
  || (c =? 45) || (c =? 46) || (c =? 33) || (c =? 126)   (* - . ! ~ *)
  || (c =? 42) || (c =? 39) || (c =? 40) || (c =? 41).   (* * ' ( ) *)

Definition escape_code_point (cp : N) : jsstring :=
  flat_map percent_escape (utf8_octets cp).

(** Encode(string, extraUnescaped) with an empty extraUnescaped: the loop
    over the code units, reading a code point (CodePointAt) at each
    character that has to be escaped and throwing on a surrogate that is
    not part of a pair. *)
Fixpoint Encode (s : jsstring) : completion jsstring :=
  match s with
  | [] => Normal []
  | c :: rest =>
      if unescaped c then cmap (cons c) (Encode rest)
      else if is_high_surrogate c then
        match rest with
        | lo :: rest' =>
            if is_low_surrogate lo then
              cmap (app (escape_code_point (surrogate_pair c lo))) (Encode rest')
            else Throw URIError
        | [] => Throw URIError
        end
      else if is_low_surrogate c then Throw URIError
      else cmap (app (escape_code_point c)) (Encode rest)
  end.

(** The number of leading 1 bits of an octet. *)
Definition leading_ones (b : N) : nat :=
  if b <? 0x80 then 0
  else if b <? 0xC0 then 1
  else if b <? 0xE0 then 2
  else if b <? 0xF0 then 3
  else if b <? 0xF8 then 4
  else 5.

(** Reads [n] escapes [%XX] at the head of [s]: the octets, or [None] when
    the string ends, a [%] is missing or the digits are not hexadecimal. *)
Fixpoint continuation_octets (n : nat) (s : jsstring) : option (list N) :=
  match n with
  | O => Some []
  | S n' =>
      match s with
      | c :: h1 :: h2 :: rest =>
          if c =? 37 then
            match ParseHexOctet h1 h2, continuation_octets n' rest with
            | Some b, Some l => Some (b :: l)
            | _, _ => None
            end
          else None
      | _ => None
      end
  end.

(** The code point of a sequence of octets that is a valid UTF-8 encoding
    of one code point: continuation octets of the form 10xxxxxx, the
    shortest form, no surrogate, at most U+10FFFF. *)
Definition utf8_code_point (octets : list N) : option N :=
  let cont b := in_range 0x80 0xBF b in
  let ok (lo v : N) :=
    if (lo <=? v) && (v <=? 0x10FFFF) && negb (is_surrogate v) then Some v else None in
  match octets with
  | [b0; b1] =>
      if cont b1 then ok 0x80 ((b0 - 0xC0) * 64 + (b1 - 0x80)) else None
  | [b0; b1; b2] =>
      if cont b1 && cont b2 then
        ok 0x800 ((b0 - 0xE0) * 4096 + (b1 - 0x80) * 64 + (b2 - 0x80))
      else None
  | [b0; b1; b2; b3] =>
      if cont b1 && cont b2 && cont b3 then
        ok 0x10000 ((b0 - 0xF0) * 262144 + (b1 - 0x80) * 4096
                    + (b2 - 0x80) * 64 + (b3 - 0x80))
      else None
  | _ => None
  end.

(** One turn of the loop of Decode at a code unit [c] followed by [rest]:
    the string appended to the result and the number of code units of
    [rest] the turn consumes. *)
Definition Decode_step (c : code_unit) (rest : jsstring)
  : completion (jsstring * nat) :=
  if negb (c =? 37) then Normal ([c], 0%nat)
  else
    match rest with
    | h1 :: h2 :: rest' =>
        match ParseHexOctet h1 h2 with
        | None => Throw URIError
        | Some b =>
            match leading_ones b with
            | O => Normal ([b], 2%nat)
            | S O => Throw URIError
            | S (S (S (S (S _)))) => Throw URIError
            | S m =>
                match continuation_octets m rest' with
                | None => Throw URIError
                | Some octets =>
                    match utf8_code_point (b :: octets) with
                    | None => Throw URIError
                    | Some v => Normal (UTF16EncodeCodePoint v, (2 + 3 * m)%nat)
                    end
                end
            end
        end
    | _ => Throw URIError
    end.

(** Decode(string, preserveEscapeSet) with an empty preserveEscapeSet.
    [skip] counts the code units the last turn has already consumed. *)
Fixpoint Decode_from (skip : nat) (s : jsstring) : completion jsstring :=
  match s with
  | [] => Normal []
  | c :: rest =>
      match skip with
      | S k => Decode_from k rest
      | O =>
          cbind (Decode_step c rest) (fun '(out, k) =>
          cmap (app out) (Decode_from k rest))
      end
  end.

Definition Decode (s : jsstring) : completion jsstring := Decode_from 0 s.

End URI.

Definition encodeURIComponent (s : jsstring) : completion jsstring := URI.Encode s.
Definition decodeURIComponent (s : jsstring) : completion jsstring := URI.Decode s.

(* ================================================================= *)
(** ** URLSearchParams and the search component of a URL *)

Module UrlEncoded.

(** The pieces of a sequence between occurrences of [sep]. *)
Fixpoint split_on (sep : N) (l : list N) : list (list N) :=
  match l with
  | [] => [[]]
  | c :: rest =>
      if c =? sep then [] :: split_on sep rest
      else
        match split_on sep rest with
        | cur :: others => (c :: cur) :: others
        | [] => [[c]]
        end
  end.

(** The part before the first [sep] and, when there is one, the part
    after it. *)
Fixpoint split_first (sep : N) (l : list N) : list N * option (list N) :=
  match l with
  | [] => ([], None)
  | c :: rest =>
      if c =? sep then ([], Some rest)
      else let '(before, after) := split_first sep rest in (c :: before, after)
  end.

(** percent-decode of a byte sequence: a [%] that two hexadecimal digits
    do not follow stays as it is. *)
Fixpoint percent_decode (bytes : list N) : list N :=
  match bytes with
  | [] => []
  | c :: rest =>
      if c =? 37 then
        match rest with
        | h1 :: h2 :: rest' =>
            match ParseHexOctet h1 h2 with
            | Some b => b :: percent_decode rest'
            | None => c :: percent_decode rest
            end
        | _ => c :: percent_decode rest
        end
      else c :: percent_decode rest
  end.

Definition plus_to_space (bytes : list N) : list N :=
  map (fun b => if b =? 43 then 32 else b) bytes.

Definition decode_component (bytes : list N) : jsstring :=
  utf8_decode (percent_decode (plus_to_space bytes)).

(** The application/x-www-form-urlencoded parser on bytes: the list of
    name-value tuples. *)
Fixpoint parse_sequences (sequences : list (list N)) : list (jsstring * jsstring) :=
  match sequences with
  | [] => []
  | [] :: others => parse_sequences others
  | bytes :: others =>
      let '(name, value) :=
        match split_first 61 bytes with
        | (n, Some v) => (n, v)
        | (n, None) => (n, [])
        end in
      (decode_component name, decode_component value) :: parse_sequences others
  end.

Definition parse (input : jsstring) : list (jsstring * jsstring) :=
  parse_sequences (split_on 38 (utf8_encode input)).

End UrlEncoded.

(** [new URLSearchParams(init)] for a string [init]: a leading [?] is
    removed, the rest is parsed. *)
Definition URLSearchParams (init : jsstring) : list (jsstring * jsstring) :=
  match init with
  | c :: rest => if c =? 63 then UrlEncoded.parse rest else UrlEncoded.parse init
  | [] => UrlEncoded.parse init
  end.

(** [urlParams.get(name)]: the value of the first tuple named [name], or
    null ([None]). *)
Fixpoint get (urlParams : list (jsstring * jsstring)) (name : jsstring) : option jsstring :=
  match urlParams with
  | [] => None
  | (n, v) :: rest => if jsstring_eqb n name then Some v else get rest name
  end.

Module Url.

Fixpoint drop_while (p : N -> bool) (l : list N) : list N :=
  match l with
  | [] => []
  | c :: rest => if p c then drop_while p rest else l
  end.

Definition is_c0_or_space (c : N) : bool := c <=? 0x20.
Definition is_tab_or_newline (c : N) : bool := (c =? 9) || (c =? 10) || (c =? 13).

(** The URL parser first removes leading and trailing C0 controls and
    spaces, and every tab and newline. *)
Definition preprocess (input : jsstring) : jsstring :=
  filter (fun c => negb (is_tab_or_newline c))
    (rev (drop_while is_c0_or_space (rev (drop_while is_c0_or_space input)))).

(** The special-query percent-encode set, on bytes. *)
Definition in_special_query_set (b : N) : bool :=
  (b <=? 0x1F) || (0x7E <? b)
  || (b =? 0x20) || (b =? 0x22) || (b =? 0x23) || (b =? 0x3C) || (b =? 0x3E)
  || (b =? 0x27).

Definition percent_encode_query (q : jsstring) : jsstring :=
  flat_map (fun b => if in_special_query_set b then percent_escape b else [b])
    (utf8_encode q).

(** The query of the URL record of [href]: what lies between the first
    [?] and the first [#], percent-encoded; null ([None]) if there is no
    [?]. *)
Definition query (href : jsstring) : option jsstring :=
  let '(before_fragment, _) := UrlEncoded.split_first 35 (preprocess href) in
  match UrlEncoded.split_first 63 before_fragment with
  | (_, Some q) => Some (percent_encode_query q)
  | (_, None) => None
  end.

(** The [search] getter: empty for a null or empty query, else [?] and the
    query. *)
Definition search (href : jsstring) : jsstring :=
  match query href with
  | None => []
  | Some [] => []
  | Some q => 63 :: q
  end.

End Url.

(* ================================================================= *)
(** ** The component: templates, state, effects and callbacks *)

Module App.

(** An entry of [TEMPLATES]. *)
Record Template : Type := {
  html : jsstring;
  css : jsstring;
  js : jsstring
}.

Definition default_html : jsstring :=
  lines [
    lit "<!DOCTYPE html>";
    lit "<html>";
    lit "<head>";
    lit "  <title>Live Preview</title>";
    lit "</head>";
    lit "<body>";
    lit "  <h1>Hello from the Editor!</h1>";
    lit "  <p>Start typing your HTML here.</p>";
    lit "  <button id=" ++ dq ++ lit "myButton" ++ dq ++ lit ">Click Me</button>";
    lit "</body>";
    lit "</html>"
  ].

Definition default_css : jsstring :=
  lines [
    lit "body {";
    lit "  margin: 0;";
    lit "  display: flex;";
    lit "  justify-content: center;";
    lit "  align-items: center;";
    lit "  min-height: 100vh;";
    lit "  flex-direction: column;";
    lit "}";
    lit "h1 {";
    lit "  text-align: center;";
    lit "  font-size: 3em;";
    lit "  color: green;";
    lit "}";
    lit "button {";
    lit "  padding: 10px 20px;";
    lit "  background-color: #007bff;";
    lit "  color: white;";
    lit "  border: none;";
    lit "  border-radius: 5px;";
    lit "  cursor: pointer;";
    lit "  margin-top: 20px;";
    lit "}";
    lit "button:hover {";
    lit "  background-color: #0056b3;";
    lit "}"
  ].

Definition default_js : jsstring :=
  lines [
    lit "console.log(" ++ dq ++ lit "Hello from JavaScript!" ++ dq ++ lit ");";
    lit "document.addEventListener('DOMContentLoaded', () => {";
    lit "  const button = document.getElementById('myButton');";
    lit "  if (button) {";
    lit "    button.addEventListener('click', () => {";
    lit "      alert('Button clicked!');";
    lit "    });";
    lit "  }";
    lit "});"
  ].

Definition simpleCard_html : jsstring :=
  lines [
    lit "<!DOCTYPE html>";
    lit "<html>";
    lit "<head>";
    lit "  <title>Simple Card</title>";
    lit "</head>";
    lit "<body>";
    lit "  <div class=" ++ dq ++ lit "card" ++ dq ++ lit ">";
    lit "    <h2>Card Title</h2>";
    lit "    <p>This is a simple card created with HTML and CSS.</p>";
    lit "    <button class=" ++ dq ++ lit "card-button" ++ dq ++ lit ">Learn More</button>";
    lit "  </div>";
    lit "</body>";
    lit "</html>"
  ].

Definition simpleCard_css : jsstring :=
  lines [
    lit "body {";
    lit "  font-family: sans-serif;";
    lit "  margin: 0;";
    lit "  display: flex;";
    lit "  justify-content: center;";
    lit "  align-items: center;";
    lit "  min-height: 100vh;";
    lit "  background-color: #f4f4f4;";
    lit "}";
    lit ".card {";
    lit "  background-color: #fff;";
    lit "  border-radius: 8px;";
    lit "  box-shadow: 0 4px 8px rgba(0, 0, 0, 0.1);";
    lit "  padding: 20px;";
    lit "  width: 300px;";
    lit "  text-align: center;";
    lit "}";
    lit ".card h2 {";
    lit "  color: #333;";
    lit "}";
    lit ".card p {";
    lit "  color: #666;";
    lit "  font-size: 0.9em;";
    lit "  line-height: 1.5;";
    lit "}";
    lit ".card-button {";
    lit "  background-color: #4CAF50;";
    lit "  color: white;";
    lit "  padding: 10px 15px;";
    lit "  border: none;";
    lit "  border-radius: 5px;";
    lit "  cursor: pointer;";
    lit "  margin-top: 15px;";
    lit "}";
    lit ".card-button:hover {";
    lit "  background-color: #45a049;";
    lit "}"
  ].

Definition simpleCard_js : jsstring :=
  lines [
    lit "console.log(" ++ dq ++ lit "Card loaded!" ++ dq ++ lit ");";
    lit "document.addEventListener('DOMContentLoaded', () => {";
    lit "  const button = document.querySelector('.card-button');";
    lit "  if (button) {";
    lit "    button.addEventListener('click', () => {";
    lit "      alert('Card button clicked!');";
    lit "    });";
    lit "  }";
    lit "});"
  ].

Definition flexboxExample_html : jsstring :=
  lines [
    lit "<!DOCTYPE html>";
    lit "<html>";
    lit "<head>";
    lit "  <title>Flexbox Layout</title>";
    lit "</head>";
    lit "<body>";
    lit "  <div class=" ++ dq ++ lit "flex-container" ++ dq ++ lit ">";
    lit "    <div class=" ++ dq ++ lit "flex-item" ++ dq ++ lit ">Item 1</div>";
    lit "    <div class=" ++ dq ++ lit "flex-item" ++ dq ++ lit ">Item 2</div>";
    lit "    <div class=" ++ dq ++ lit "flex-item" ++ dq ++ lit ">Item 3</div>";
    lit "  </div>";
    lit "</body>";
    lit "</html>"
  ].

Definition flexboxExample_css : jsstring :=
  lines [
    lit "body {";
    lit "  font-family: sans-serif;";
    lit "  margin: 0;";
    lit "  display: flex;";
    lit "  justify-content: center;";
    lit "  align-items: center;";
    lit "  min-height: 100vh;";
    lit "  background-color: #eee;";
    lit "}";
    lit ".flex-container {";
    lit "  display: flex;";
    lit "  flex-wrap: wrap;";
    lit "  gap: 10px;";
    lit "  padding: 20px;";
    lit "  background-color: #fff;";
    lit "  border-radius: 8px;";
    lit "  box-shadow: 0 2px 4px rgba(0,0,0,0.1);";
    lit "}";
    lit ".flex-item {";
    lit "  background-color: #007bff;";
    lit "  color: white;";
    lit "  padding: 20px;";
    lit "  border-radius: 5px;";
    lit "  flex: 1; /* Allows items to grow and shrink */";
    lit "  min-width: 100px;";
    lit "  text-align: center;";
    lit "}";
    []
  ].

Definition flexboxExample_js : jsstring :=
  lit "console.log(" ++ dq ++ lit "Flexbox example loaded." ++ dq ++ lit ");".

(** The own properties of the object [TEMPLATES], in the order of the
    literal. *)
Definition TEMPLATES : list (jsstring * Template) :=
  [ (lit "default",
     {| html := default_html; css := default_css; js := default_js |});
    (lit "simpleCard",
     {| html := simpleCard_html; css := simpleCard_css; js := simpleCard_js |});
    (lit "flexboxExample",
     {| html := flexboxExample_html; css := flexboxExample_css;
        js := flexboxExample_js |}) ].

(** [TEMPLATES.default]. *)
Definition TEMPLATES_default : Template :=
  {| html := default_html; css := default_css; js := default_js |}.

(** The properties every object literal inherits from [Object.prototype]. *)
Definition Object_prototype : list jsstring :=
  [ lit "constructor"; lit "__defineGetter__"; lit "__defineSetter__";
    lit "hasOwnProperty"; lit "__lookupGetter__"; lit "__lookupSetter__";
    lit "isPrototypeOf"; lit "propertyIsEnumerable"; lit "toString";
    lit "valueOf"; lit "__proto__"; lit "toLocaleString" ].

(** What [TEMPLATES[name]] evaluates to. *)
Inductive property : Type :=
| Entry (t : Template)   (* an own property: one of the templates *)
| Inherited              (* a member of Object.prototype: a function, or
                            for __proto__ the prototype itself *)
| NoProperty.            (* undefined *)

Fixpoint own_property (props : list (jsstring * Template)) (name : jsstring)
  : option Template :=
  match props with
  | [] => None
  | (n, t) :: rest => if jsstring_eqb n name then Some t else own_property rest name
  end.

(** [TEMPLATES[name]]: the own property if there is one, else the
    property of the prototype, else undefined. *)
Definition TEMPLATES_lookup (name : jsstring) : property :=
  match own_property TEMPLATES name with
  | Some t => Entry t
  | None =>
      if existsb (jsstring_eqb name) Object_prototype then Inherited
      else NoProperty
  end.

(** Truthiness of [TEMPLATES[name]]: only undefined is falsy. *)
Definition property_truthy (p : property) : bool :=
  match p with
  | NoProperty => false
  | _ => true
  end.

(** [template.html], [template.css], [template.js]: the members of
    Object.prototype have no such property. *)
Definition field (f : Template -> jsstring) (p : property) : value :=
  match p with
  | Entry t => Str (f t)
  | _ => Undefined
  end.

Inductive console_entry : Type :=
| ConsoleError (message : jsstring) (e : exn)
| ConsoleWarn (message : jsstring).

(** The four state cells of the component, and what it has written to
    the console. *)
Record state : Type := {
  htmlCode : value;
  cssCode : value;
  jsCode : value;
  srcDoc : jsstring;
  console : list console_entry
}.

(** The state at mount: the [useState] initial values. *)
Definition initial_state : state :=
  {| htmlCode := Str (html TEMPLATES_default);
     cssCode := Str (css TEMPLATES_default);
     jsCode := Str (js TEMPLATES_default);
     srcDoc := [];
     console := [] |}.

(** Code that runs on the state and may throw. *)
Definition action (A : Type) : Type := state -> completion A * state.

Definition ret {A} (a : A) : action A := fun st => (Normal a, st).

Definition bind {A B} (m : action A) (k : A -> action B) : action B :=
  fun st =>
    match m st with
    | (Normal a, st') => k a st'
    | (Throw e, st') => (Throw e, st')
    end.

Notation "x <- m ;; k" := (bind m (fun x => k))
  (at level 61, m at next level, right associativity).
Notation "m ;; k" := (bind m (fun _ => k))
  (at level 61, right associativity).

(** The completion of a platform call, inside an action. *)
Definition lift {A} (c : completion A) : action A := fun st => (c, st).

(** [try { body } catch (e) { handler }]: what [body] did to the state
    before it threw stays done. *)
Definition try_catch {A} (body : action A) (handler : exn -> action A) : action A :=
  fun st =>
    match body st with
    | (Normal a, st') => (Normal a, st')
    | (Throw e, st') => handler e st'
    end.

(** The setters of the state cells.  A call schedules the new value for the
    next render; once an effect or a callback has run, each cell holds the
    value of the last call of its setter, which is what applying the calls
    in order gives. *)
Definition setHtmlCode (v : value) : action unit :=
  fun st => (Normal tt,
             {| htmlCode := v; cssCode := cssCode st; jsCode := jsCode st;
                srcDoc := srcDoc st; console := console st |}).

Definition setCssCode (v : value) : action unit :=
  fun st => (Normal tt,
             {| htmlCode := htmlCode st; cssCode := v; jsCode := jsCode st;
                srcDoc := srcDoc st; console := console st |}).

Definition setJsCode (v : value) : action unit :=
  fun st => (Normal tt,
             {| htmlCode := htmlCode st; cssCode := cssCode st; jsCode := v;
                srcDoc := srcDoc st; console := console st |}).

Definition setSrcDoc (d : jsstring) : action unit :=
  fun st => (Normal tt,
             {| htmlCode := htmlCode st; cssCode := cssCode st; jsCode := jsCode st;
                srcDoc := d; console := console st |}).

Definition log (e : console_entry) : action unit :=
  fun st => (Normal tt,
             {| htmlCode := htmlCode st; cssCode := cssCode st; jsCode := jsCode st;
                srcDoc := srcDoc st; console := console st ++ [e] |}).

(** The template literal [fullSrcDoc] (lines 180-191). *)
Definition fullSrcDoc (htmlCode cssCode jsCode : value) : jsstring :=
  lines [ [];
          lit "      <!DOCTYPE html>";
          lit "      <html>";
          lit "      <head>";
          lit "        <style>" ++ ToString cssCode ++ lit "</style>";
          lit "      </head>";
          lit "      <body>";
          lit "        " ++ ToString htmlCode;
          lit "        <script>" ++ ToString jsCode ++ lit "</script>";
          lit "      </body>";
          lit "      </html>";
          lit "    " ].

(** The effect that recomputes the preview document (lines 179-193). *)
Definition srcDocEffect : action unit :=
  fun st => setSrcDoc (fullSrcDoc (htmlCode st) (cssCode st) (jsCode st)) st.

(** Truthiness of what [urlParams.get] returns: null and the empty string
    are falsy. *)
Definition truthy (p : option jsstring) : bool :=
  match p with
  | None => false
  | Some [] => false
  | Some (_ :: _) => true
  end.

(** [if (p) set(atob(decodeURIComponent(p)))]. *)
Definition decode_into (set : value -> action unit) (p : option jsstring) : action unit :=
  match p with
  | Some (c :: rest) =>
      s <- lift (cbind (decodeURIComponent (c :: rest)) atob) ;;
      set (Str s)
  | _ => ret tt
  end.

(** The effect that reads the buffers from the query string on mount
    (lines 197-216); [search] is [window.location.search]. *)
Definition urlEffect (search : jsstring) : action unit :=
  let urlParams := URLSearchParams search in
  let urlHtml := get urlParams (lit "html") in
  let urlCss := get urlParams (lit "css") in
  let urlJs := get urlParams (lit "js") in
  if truthy urlHtml || truthy urlCss || truthy urlJs then
    try_catch
      (decode_into setHtmlCode urlHtml ;;
       decode_into setCssCode urlCss ;;
       decode_into setJsCode urlJs)
      (fun e =>
         log (ConsoleError (lit "Failed to decode code from URL") e) ;;
         setHtmlCode (Str (html TEMPLATES_default)) ;;
         setCssCode (Str (css TEMPLATES_default)) ;;
         setJsCode (Str (js TEMPLATES_default)))
  else ret tt.

(** [generateShareUrl] (lines 220-228); [origin] is
    [window.location.origin].  The argument of [btoa] is converted to a
    string. *)
Definition generateShareUrl (origin : jsstring) (st : state) : completion jsstring :=
  cbind (cbind (btoa (ToString (htmlCode st))) encodeURIComponent) (fun encodedHtml =>
  cbind (cbind (btoa (ToString (cssCode st))) encodeURIComponent) (fun encodedCss =>
  cbind (cbind (btoa (ToString (jsCode st))) encodeURIComponent) (fun encodedJs =>
  Normal (origin ++ lit "/?html=" ++ encodedHtml ++ lit "&css=" ++ encodedCss
                 ++ lit "&js=" ++ encodedJs)))).

(** [loadTemplate] (lines 231-243); [confirm] is the user's answer to
    [window.confirm]. *)
Definition loadTemplate (confirm : jsstring -> bool) (templateName : jsstring)
  : action unit :=
  match templateName with
  | [] => ret tt
  | _ =>
      let template := TEMPLATES_lookup templateName in
      if property_truthy template then
        if confirm (lit "Loading a template will overwrite your current code. Are you sure?")
        then
          setHtmlCode (field html template) ;;
          setCssCode (field css template) ;;
          setJsCode (field js template)
        else ret tt
      else
        log (ConsoleWarn (lit "Template " ++ dq ++ templateName ++ dq ++ lit " not found."))
  end.

(** The state after an action, whatever its completion. *)
Definition exec {A} (m : action A) (st : state) : state := snd (m st).

(** The three buffers of a state. *)
Definition buffers (st : state) : value * value * value :=
  (htmlCode st, cssCode st, jsCode st).

End App.

(* ================================================================= *)
(** ** The rest of the component: renders, events, the template select
       and the share button *)

Module Ui.

Import App.

(** [Object.is] on two values of a buffer, as React compares the
    dependencies of an effect. *)
Definition value_eqb (a b : value) : bool :=
  match a, b with
  | Undefined, Undefined => true
  | Str x, Str y => jsstring_eqb x y
  | _, _ => false
  end.

(** Whether one of the dependencies [htmlCode, cssCode, jsCode] of the
    preview effect (line 193) differs between two renders. *)
Definition deps_changed (prev st : state) : bool :=
  negb (value_eqb (htmlCode prev) (htmlCode st)
        && value_eqb (cssCode prev) (cssCode st)
        && value_eqb (jsCode prev) (jsCode st)).

(** The render that follows the state updates of an effect or a handler
    that ran in the render [prev]: the preview effect runs again when one of
    its dependencies changed, and not otherwise. *)
Definition commit (prev st : state) : state :=
  if deps_changed prev st then exec srcDocEffect st else st.

(** Mounting the component on a page whose [window.location.search] is
    [search]: the first render has the [useState] initial values, its two
    effects run in the order of the source, and the render that follows
    their updates runs the preview effect again if the buffers changed. *)
Definition mount (search : jsstring) : state :=
  let st1 := exec srcDocEffect initial_state in
  let st2 := exec (urlEffect search) st1 in
  commit initial_state st2.

(** What the user does to the component: an editor reports its new content
    ([onChange] of the three [Editor]s, lines 280, 293 and 306; the content
    is a string or undefined), or the user picks an entry of the template
    select and answers the prompt if there is one (line 255). *)
Inductive event : Type :=
| EditHtml (content : value)
| EditCss (content : value)
| EditJs (content : value)
| SelectTemplate (templateName : jsstring) (answer : bool).

Definition handle (ev : event) : action unit :=
  match ev with
  | EditHtml content => setHtmlCode content
  | EditCss content => setCssCode content
  | EditJs content => setJsCode content
  | SelectTemplate templateName answer => loadTemplate (fun _ => answer) templateName
  end.

(** An event and the render that follows it. *)
Definition step (st : state) (ev : event) : state :=
  commit st (exec (handle ev) st).

(** The component after mounting and a sequence of events. *)
Definition run (search : jsstring) (events : list event) : state :=
  fold_left step events (mount search).

(** [Object.keys(TEMPLATES)]: the own property names, in the order of the
    literal. *)
Definition Object_keys (props : list (jsstring * Template)) : list jsstring :=
  map fst props.

(** The values of the options of the template select (lines 266-271): the
    empty value of "-- Select --", then the keys of [TEMPLATES]. *)
Definition select_values : list jsstring := [] :: Object_keys TEMPLATES.

(** [toUpperCase] of one character.  Only the mapping of ASCII is
    modelled (outside ASCII the function of the platform changes other
    letters too, and can give more than one character): every statement
    about labels is for keys that begin with an ASCII character. *)
Definition toUpperCase_char (c : code_unit) : code_unit :=
  if is_lower c then c - 32 else c.

(** [key.charAt(0)]: the first character as a string, or the empty string. *)
Definition charAt0 (key : jsstring) : jsstring :=
  match key with
  | [] => []
  | c :: _ => [c]
  end.

(** [key.slice(1)]. *)
Definition slice1 (key : jsstring) : jsstring :=
  match key with
  | [] => []
  | _ :: rest => rest
  end.

(** [.replace(/([A-Z])/g, ' $1')]: a space before every ASCII capital. *)
Definition space_capitals (s : jsstring) : jsstring :=
  flat_map (fun c => if is_upper c then [32; c] else [c]) s.

(** The label of the option of a key (line 269):
    [key.charAt(0).toUpperCase() + key.slice(1).replace(/([A-Z])/g, ' $1')]. *)
Definition option_label (key : jsstring) : jsstring :=
  map toUpperCase_char (charAt0 key) ++ space_capitals (slice1 key).

(** What the browser lets the share button do: whether
    [shareUrlRef.current] is set, whether [navigator.clipboard.writeText]
    exists, and whether the promise it returns is fulfilled. *)
Record browser : Type := {
  ref_ready : bool;
  clipboard_api : bool;
  writeText_fulfilled : bool
}.

(** What the click handler of the share button does to the page, in
    order. *)
Inductive page_effect : Type :=
| SetInputValue (text : jsstring)      (* shareUrlRef.current.value = url *)
| SelectInput                          (* shareUrlRef.current.select() *)
| WriteText (text : jsstring)          (* navigator.clipboard.writeText(url) *)
| ExecCommand (command : jsstring)     (* document.execCommand('copy') *)
| Alert (message : jsstring).

(** The click handler of the share button (lines 320-337).  The callbacks
    of [then] and [catch] run once the promise of [writeText] is settled. *)
Definition shareClick (origin : jsstring) (env : browser) (st : state)
  : completion unit * list page_effect :=
  match generateShareUrl origin st with
  | Throw e => (Throw e, [])
  | Normal url =>
      if ref_ready env then
        if clipboard_api env then
          (Normal tt,
           [SetInputValue url; SelectInput; WriteText url;
            Alert (if writeText_fulfilled env
                   then lit "Share URL copied to clipboard! " ++ [10] ++ url
                   else lit "Failed to copy. Please copy manually: " ++ [10] ++ url)])
        else
          (Normal tt,
           [SetInputValue url; SelectInput; ExecCommand (lit "copy");
            Alert (lit "Share URL copied to clipboard! " ++ [10] ++ url)])
      else (Normal tt, [Alert (lit "Share URL: " ++ [10] ++ url)])
  end.

End Ui.

(* ================================================================= *)
(** ** Predicates and auxiliary functions of the proofs *)

(** A string in the single-byte range: every code unit is at most U+00FF. *)
Definition Latin1 (s : jsstring) : Prop := Forall (fun c => c <= 255) s.

(** ASCII text. *)
Definition Ascii (s : jsstring) : Prop := Forall (fun c => c < 128) s.

Definition latin1b (s : jsstring) : bool := forallb (fun c => c <=? 255) s.

(** The base64 characters of a byte sequence, without the padding. *)
Fixpoint base64_body (bytes : list N) : jsstring :=
  match bytes with
  | [] => []
  | [a] => [Base64.char_of (a / 4); Base64.char_of ((a mod 4) * 16)]
  | [a; b] =>
      [Base64.char_of (a / 4); Base64.char_of ((a mod 4) * 16 + b / 16);
       Base64.char_of ((b mod 16) * 4)]
  | a :: b :: c :: rest =>
      [Base64.char_of (a / 4); Base64.char_of ((a mod 4) * 16 + b / 16);
       Base64.char_of ((b mod 16) * 4 + c / 64); Base64.char_of (c mod 64)]
      ++ base64_body rest
  end.

(** The padding of a byte sequence. *)
Fixpoint base64_padding (bytes : list N) : jsstring :=
  match bytes with
  | [] => []
  | [_] => [61; 61]
  | [_; _] => [61]
  | _ :: _ :: _ :: rest => base64_padding rest
  end.

(** What [encodeURIComponent] makes of one ASCII character. *)
Definition uri_escape (c : code_unit) : jsstring :=
  if URI.unescaped c then [c] else percent_escape c.

(** The characters of an encoded parameter value: letters, digits and [%]. *)
Definition param_char (c : code_unit) : bool := is_alnum c || (c =? 37).

(** A character of base64 text: of the alphabet, or the padding [=]. *)
Definition base64_char (c : code_unit) : bool := Base64.in_alphabet c || (c =? 61).

(** [atob(decodeURIComponent(p))], the decoding of one parameter. *)
Definition decode_param (p : jsstring) : completion jsstring :=
  cbind (decodeURIComponent p) atob.

(** [encodeURIComponent(btoa(text))], the encoding of one buffer. *)
Definition encode_param (text : jsstring) : completion jsstring :=
  cbind (btoa text) encodeURIComponent.

(** The value of the parameter of a text in the share URL: its base64,
    escaped. *)
Definition param_value (text : jsstring) : jsstring :=
  flat_map uri_escape (Base64.encode text).

(** The characters of the query of a share URL: those of the values, [=]
    and [&]. *)
Definition query_char (c : code_unit) : bool :=
  param_char c || (c =? 61) || (c =? 38).

(** An origin the share URL can be built on: no space or control
    character, no [?] and no [#] (a serialized origin has none). *)
Definition origin_char (c : code_unit) : bool :=
  (32 <? c) && negb (c =? 63) && negb (c =? 35).

(** The query of the share URL of three encoded values. *)
Definition share_query (eh ec ej : jsstring) : jsstring :=
  lit "html=" ++ eh ++ lit "&css=" ++ ec ++ lit "&js=" ++ ej.

(** What the page does with one parameter: nothing when it is null or
    empty, else it decodes it, which gives a text or throws. *)
Inductive param_outcome : Type :=
| Skipped
| Decoded (text : jsstring)
| Failed (e : exn).

Definition outcome (p : option jsstring) : param_outcome :=
  match p with
  | Some (c :: rest) =>
      match decode_param (c :: rest) with
      | Normal text => Decoded text
      | Throw e => Failed e
      end
  | _ => Skipped
  end.

(** The buffer after a parameter with that outcome was read. *)
Definition written (o : param_outcome) (old : value) : value :=
  match o with
  | Decoded text => Str text
  | _ => old
  end.

(** The three names the page looks up. *)
Definition param_names : list jsstring := [lit "html"; lit "css"; lit "js"].

(** The buffers of the default template. *)
Definition default_buffers : value * value * value :=
  (Str (App.html App.TEMPLATES_default), Str (App.css App.TEMPLATES_default),
   Str (App.js App.TEMPLATES_default)).

(** What a buffer comes back as through a share link: itself, or the
    default text when it is empty. *)
Definition restored (text default : jsstring) : value :=
  match text with
  | [] => Str default
  | _ :: _ => Str text
  end.

(* ================================================================= *)
(** ** Predicates of the further properties *)

(** The exception the [try] block stops at: that of the first parameter, in
    the order html, css, js, whose decoding throws. *)
Definition first_failure (oh oc oj : param_outcome) : option exn :=
  match oh, oc, oj with
  | Failed e, _, _ => Some e
  | _, Failed e, _ => Some e
  | _, _, Failed e => Some e
  | _, _, _ => None
  end.

(** The preview document is the one composed from the buffers. *)
Definition in_sync (st : App.state) : Prop :=
  App.srcDoc st = App.fullSrcDoc (App.htmlCode st) (App.cssCode st) (App.jsCode st).

(** A buffer that holds a string. *)
Definition is_text (v : value) : Prop :=
  match v with
  | Str _ => True
  | Undefined => False
  end.

Definition text_buffers (st : App.state) : Prop :=
  is_text (App.htmlCode st) /\ is_text (App.cssCode st) /\ is_text (App.jsCode st).

(** An event the page can deliver when the editors report strings: the
    template name is a value of an option of the select. *)
Definition ui_event (ev : Ui.event) : Prop :=
  match ev with
  | Ui.EditHtml content | Ui.EditCss content | Ui.EditJs content => is_text content
  | Ui.SelectTemplate templateName _ => In templateName Ui.select_values
  end.

(** The messages of the alerts among the effects of a click. *)
Fixpoint alerts (effects : list Ui.page_effect) : list jsstring :=
  match effects with
  | [] => []
  | Ui.Alert message :: rest => message :: alerts rest
  | _ :: rest => alerts rest
  end.

(** The number of bytes of a text in groups of three, rounded up. *)
Definition groups_of_three (text : jsstring) : nat := Nat.div (length text + 2) 3.

(** A key whose label is modelled and can be read back: no space in it, and
    its first character is ASCII and not a capital. *)
Definition plain_key (key : jsstring) : Prop :=
  Forall (fun c => c <> 32) key
  /\ match key with
     | [] => True
     | c :: _ => c < 128 /\ is_upper c = false
     end.

(** The fixed parts of the composed document, in order. *)
Definition doc_head : jsstring :=
  lines [ []; lit "      <!DOCTYPE html>"; lit "      <html>"; lit "      <head>";
          lit "        <style>" ].

Definition doc_before_markup : jsstring :=
  lit "</style>" ++ lines [ []; lit "      </head>"; lit "      <body>"; lit "        " ].

Definition doc_before_script : jsstring :=
  lines [ []; lit "        <script>" ].

Definition doc_tail : jsstring :=
  lit "</script>" ++ lines [ []; lit "      </body>"; lit "      </html>"; lit "    " ].

(* ================================================================= *)
(** ** Tactics *)

(** Case analysis on the comparisons of the goal, closing the cases whose
    bounds contradict each other. *)
Ltac cmp_step :=
  match goal with
  | |- context [N.leb ?a ?b] => destruct (N.leb_spec a b)
  | |- context [N.ltb ?a ?b] => destruct (N.ltb_spec a b)
  | |- context [N.eqb ?a ?b] => destruct (N.eqb_spec a b)
  end.

Ltac cmp := repeat (cmp_step; try lia; cbn [andb orb negb]).

(* ================================================================= *)
(** ** Concrete runs of the platform functions *)

Example btoa_markup : btoa (lit "<p>hi</p>") = Normal (lit "PHA+aGk8L3A+").
Proof. reflexivity. Qed.

Example atob_markup : atob (lit "PHA+aGk8L3A+") = Normal (lit "<p>hi</p>").
Proof. reflexivity. Qed.

Example btoa_padding :
  btoa (lit "ab") = Normal (lit "YWI=") /\ btoa (lit "a") = Normal (lit "YQ==").
Proof. split; reflexivity. Qed.

Example atob_forgiving :
  atob (lit "YQ") = Normal (lit "a") /\ atob (lit " Y Q = = ") = Normal (lit "a")
  /\ atob (lit "Y") = Throw InvalidCharacterError
  /\ atob (lit "YQ=") = Throw InvalidCharacterError.
Proof. repeat split; reflexivity. Qed.

Example encodeURIComponent_base64 :
  encodeURIComponent (lit "a+b/c=") = Normal (lit "a%2Bb%2Fc%3D").
Proof. reflexivity. Qed.

Example encodeURIComponent_unicode :
  encodeURIComponent [0x20AC; 0xD83D; 0xDE00; 0xE9]
  = Normal (lit "%E2%82%AC%F0%9F%98%80%C3%A9")
  /\ encodeURIComponent [0xD83D] = Throw URIError.
Proof. split; reflexivity. Qed.

Example decodeURIComponent_runs :
  decodeURIComponent (lit "a%2Bb%c3%a9") = Normal (lit "a+b" ++ [0xE9])
  /\ decodeURIComponent (lit "%E2%82%AC%F0%9F%98%80") = Normal [0x20AC; 0xD83D; 0xDE00]
  /\ decodeURIComponent (lit "%") = Throw URIError
  /\ decodeURIComponent (lit "%zz") = Throw URIError
  /\ decodeURIComponent (lit "%C3") = Throw URIError
  /\ decodeURIComponent (lit "%E0%80%80") = Throw URIError.
Proof. repeat split; reflexivity. Qed.

Example URLSearchParams_run :
  URLSearchParams (lit "?html=&css=a+b%2Bc&&x&js=%zz=1&html=2")
  = [ (lit "html", []); (lit "css", lit "a b+c"); (lit "x", []);
      (lit "js", lit "%zz=1"); (lit "html", lit "2") ].
Proof. reflexivity. Qed.

Example search_run :
  Url.search (lit "https://example.com/?html=PHA%2B&css=#top") = lit "?html=PHA%2B&css="
  /\ Url.search (lit "https://example.com/") = [].
Proof. split; reflexivity. Qed.

Example share_url_run :
  App.generateShareUrl (lit "https://example.com")
    {| App.htmlCode := Str (lit "<p>hi</p>"); App.cssCode := Str (lit "p{color:red}");
       App.jsCode := Str (lit "console.log(1)"); App.srcDoc := []; App.console := [] |}
  = Normal (lit "https://example.com/?html=PHA%2BaGk8L3A%2B&css=cHtjb2xvcjpyZWR9&js=Y29uc29sZS5sb2coMSk%3D").
Proof. reflexivity. Qed.

Example TEMPLATES_default_property :
  App.TEMPLATES_lookup (lit "default") = App.Entry App.TEMPLATES_default.
Proof. reflexivity. Qed.

Example loadTemplate_simpleCard :
  App.buffers (App.exec (App.loadTemplate (fun _ => true) (lit "simpleCard"))
                 App.initial_state)
  = (Str App.simpleCard_html, Str App.simpleCard_css, Str App.simpleCard_js).
Proof. reflexivity. Qed.

Example loadTemplate_unknown :
  App.exec (App.loadTemplate (fun _ => true) (lit "nope")) App.initial_state
  = {| App.htmlCode := App.htmlCode App.initial_state;
       App.cssCode := App.cssCode App.initial_state;
       App.jsCode := App.jsCode App.initial_state;
       App.srcDoc := [];
       App.console := [App.ConsoleWarn (lit "Template " ++ dq ++ lit "nope" ++ dq
                                          ++ lit " not found.")] |}.
Proof. reflexivity. Qed.

Example urlEffect_malformed :
  App.urlEffect (lit "?html=PHA%2BaGk8L3A%2B&js=***") App.initial_state
  = (Normal tt,
     {| App.htmlCode := App.htmlCode App.initial_state;
        App.cssCode := App.cssCode App.initial_state;
        App.jsCode := App.jsCode App.initial_state;
        App.srcDoc := [];
        App.console := [App.ConsoleError (lit "Failed to decode code from URL")
                          InvalidCharacterError] |}).
Proof. reflexivity. Qed.

(* ================================================================= *)
(** ** Base64 *)

Section Base64_facts.

(** Induction on a list three elements at a time. *)
Lemma list_ind3 (A : Type) (P : list A -> Prop) :
  P [] -> (forall a, P [a]) -> (forall a b, P [a; b]) ->
  (forall a b c rest, P rest -> P (a :: b :: c :: rest)) ->
  forall l, P l.
Proof.
  intros H0 H1 H2 H3 l.
  assert (G : P l /\ (forall a, P (a :: l)) /\ (forall a b, P (a :: b :: l))).
  { induction l as [|x l [IH0 [IH1 IH2]]]; repeat split; auto. }
  apply G.
Qed.

Lemma index_of_char_of n : n < 64 -> Base64.index_of (Base64.char_of n) = Some n.
Proof.
  intro Hn.
  unfold Base64.char_of. cmp; subst;
    unfold Base64.index_of, is_upper, is_lower, is_digit, in_range;
    cmp; f_equal; lia.
Qed.

Lemma char_of_alnum_or n :
  n < 64 -> is_alnum (Base64.char_of n) = true \/ Base64.char_of n = 43 \/ Base64.char_of n = 47.
Proof.
  intro Hn.
  unfold Base64.char_of. cmp; auto;
    left; unfold is_alnum, is_upper, is_lower, is_digit, in_range; cmp; auto.
Qed.

Lemma encode_body_padding bytes :
  Base64.encode bytes = base64_body bytes ++ base64_padding bytes.
Proof.
  induction bytes as [| a | a b | a b c rest IH] using list_ind3; try reflexivity.
  cbn [Base64.encode base64_body base64_padding]. rewrite IH.
  rewrite <- app_assoc. reflexivity.
Qed.

Lemma in_alphabet_char_of n : n < 64 -> Base64.in_alphabet (Base64.char_of n) = true.
Proof.
  intro Hn. unfold Base64.in_alphabet. now rewrite index_of_char_of.
Qed.

Lemma Latin1_cons c s : Latin1 (c :: s) <-> c <= 255 /\ Latin1 s.
Proof. unfold Latin1. split; [intro H; inversion H; auto | intros [? ?]; auto]. Qed.

Lemma latin1b_spec s : latin1b s = true <-> Latin1 s.
Proof.
  unfold latin1b, Latin1. rewrite forallb_forall, Forall_forall.
  split; intros H c Hc; apply N.leb_le, H, Hc.
Qed.

(** The body of the encoding is in the alphabet, and its 6-bit groups
    decode to the bytes. *)
Lemma body_decodes bytes :
  Latin1 bytes ->
  exists groups,
    Base64.indices (base64_body bytes) = Some groups
    /\ Base64.decode_groups groups = bytes.
Proof.
  induction bytes as [| a | a b | a b c rest IH] using list_ind3; intro HL.
  - exists []. split; reflexivity.
  - apply Latin1_cons in HL as [Ha _].
    eexists. cbn [base64_body Base64.indices].
    rewrite !index_of_char_of by lia. split; [reflexivity|].
    cbn [Base64.decode_groups]. f_equal. lia.
  - apply Latin1_cons in HL as [Ha HL]. apply Latin1_cons in HL as [Hb _].
    eexists. cbn [base64_body Base64.indices].
    rewrite !index_of_char_of by lia. split; [reflexivity|].
    cbn [Base64.decode_groups]. f_equal; [|f_equal]; lia.
  - apply Latin1_cons in HL as [Ha HL]. apply Latin1_cons in HL as [Hb HL].
    apply Latin1_cons in HL as [Hc HL].
    destruct (IH HL) as [groups [Hi Hg]].
    eexists. cbn [base64_body Base64.indices app].
    rewrite !index_of_char_of by lia. rewrite Hi. split; [reflexivity|].
    cbn [Base64.decode_groups app]. rewrite Hg.
    f_equal; [|f_equal; [|f_equal]]; lia.
Qed.

Lemma body_alphabet bytes :
  Latin1 bytes -> Forall (fun c => Base64.in_alphabet c = true) (base64_body bytes).
Proof.
  induction bytes as [| a | a b | a b c rest IH] using list_ind3; intro HL.
  - constructor.
  - apply Latin1_cons in HL as [Ha _].
    cbn [base64_body]. repeat constructor; apply in_alphabet_char_of; lia.
  - apply Latin1_cons in HL as [Ha HL]. apply Latin1_cons in HL as [Hb _].
    cbn [base64_body]. repeat constructor; apply in_alphabet_char_of; lia.
  - apply Latin1_cons in HL as [Ha HL]. apply Latin1_cons in HL as [Hb HL].
    apply Latin1_cons in HL as [Hc HL].
    cbn [base64_body app].
    repeat (constructor; [apply in_alphabet_char_of; lia|]). auto.
Qed.

Lemma mod4_S4 n : (Nat.modulo (S (S (S (S n)))) 4 = Nat.modulo n 4)%nat.
Proof.
  replace (S (S (S (S n)))) with (n + 1 * 4)%nat by lia.
  apply Nat.Div0.mod_add.
Qed.

Lemma body_length bytes :
  (Nat.modulo (length (base64_body bytes)) 4 <> 1)%nat
  /\ (Nat.modulo (length (Base64.encode bytes)) 4 = 0)%nat.
Proof.
  induction bytes as [| a | a b | a b c rest [IH1 IH2]] using list_ind3;
    try (split; [discriminate | reflexivity]).
  cbn [base64_body Base64.encode app length].
  rewrite !mod4_S4. auto.
Qed.

Lemma alphabet_bounds c :
  Base64.in_alphabet c = true ->
  c <> 61 /\ c <> 37 /\ c <> 38 /\ 32 < c /\ c < 127.
Proof.
  unfold Base64.in_alphabet, Base64.index_of, is_upper, is_lower, is_digit, in_range.
  cmp; intro Hcase; try discriminate Hcase; lia.
Qed.

Lemma filter_all (A : Type) (f : A -> bool) (l : list A) :
  Forall (fun x => f x = true) l -> filter f l = l.
Proof.
  induction 1 as [|x l Hx _ IH]; cbn [filter]; [reflexivity|].
  rewrite Hx, IH. reflexivity.
Qed.

Lemma padding_cases bytes :
  base64_padding bytes = [] \/ base64_padding bytes = [61]
  \/ base64_padding bytes = [61; 61].
Proof.
  induction bytes as [| a | a b | a b c rest IH] using list_ind3; cbn; auto.
Qed.

Lemma ends_with_equals_alphabet body :
  Forall (fun c => Base64.in_alphabet c = true) body ->
  Base64.ends_with_equals body = false.
Proof.
  intro HF. unfold Base64.ends_with_equals.
  destruct body as [|x body']; [reflexivity|].
  destruct (exists_last (l := x :: body')) as [l' [a Heq]]; [discriminate|].
  rewrite Heq in *. rewrite last_last.
  apply Forall_app in HF as [_ Ha]. inversion Ha as [|? ? Hin _]; subst.
  apply alphabet_bounds in Hin. apply N.eqb_neq. tauto.
Qed.

Lemma strip_padding_encode bytes :
  Latin1 bytes -> Base64.strip_padding (Base64.encode bytes) = base64_body bytes.
Proof.
  intro HL. unfold Base64.strip_padding.
  destruct (body_length bytes) as [_ ->]. cbn [Nat.eqb].
  rewrite encode_body_padding.
  pose proof (ends_with_equals_alphabet _ (body_alphabet _ HL)) as Hbody.
  destruct (padding_cases bytes) as [-> | [-> | ->]].
  - rewrite app_nil_r, Hbody. reflexivity.
  - unfold Base64.ends_with_equals at 1. rewrite last_last. cbn [N.eqb Pos.eqb].
    rewrite removelast_last, Hbody. reflexivity.
  - change [61; 61] with ([61] ++ [61]). rewrite app_assoc.
    unfold Base64.ends_with_equals at 1. rewrite last_last. cbn [N.eqb Pos.eqb].
    rewrite removelast_last.
    unfold Base64.ends_with_equals at 1. rewrite last_last. cbn [N.eqb Pos.eqb].
    rewrite removelast_last. reflexivity.
Qed.

Lemma encode_chars bytes :
  Latin1 bytes -> Forall (fun c => base64_char c = true) (Base64.encode bytes).
Proof.
  intro HL. rewrite encode_body_padding. apply Forall_app. split.
  - eapply Forall_impl; [|apply body_alphabet, HL].
    intros c Hc. unfold base64_char. now rewrite Hc.
  - destruct (padding_cases bytes) as [-> | [-> | ->]]; repeat constructor.
Qed.

Lemma base64_char_bounds c :
  base64_char c = true -> c <> 37 /\ c <> 38 /\ 32 < c /\ c < 127.
Proof.
  unfold base64_char. intro H. apply orb_true_iff in H as [H | H].
  - apply alphabet_bounds in H. tauto.
  - apply N.eqb_eq in H. lia.
Qed.

(** forgiving-base64 decode inverts forgiving-base64 encode on bytes. *)
Lemma decode_encode bytes :
  Latin1 bytes -> Base64.decode (Base64.encode bytes) = Some bytes.
Proof.
  intro HL. unfold Base64.decode.
  rewrite filter_all.
  - rewrite strip_padding_encode by assumption.
    destruct (body_length bytes) as [Hlen _].
    apply Nat.eqb_neq in Hlen. rewrite Hlen.
    destruct (body_decodes bytes HL) as [groups [-> Hg]].
    cbn [option_map]. now rewrite Hg.
  - eapply Forall_impl; [|apply encode_chars, HL].
    intros c Hc. apply base64_char_bounds in Hc.
    unfold is_ascii_whitespace. cmp; reflexivity.
Qed.

Lemma btoa_Latin1 s : Latin1 s -> btoa s = Normal (Base64.encode s).
Proof.
  intro HL. unfold btoa.
  replace (existsb (fun c => 255 <? c) s) with false; [reflexivity|].
  symmetry. apply not_true_is_false. intro H.
  apply existsb_exists in H as [c [Hin Hc]].
  unfold Latin1 in HL. rewrite Forall_forall in HL. specialize (HL c Hin).
  apply N.ltb_lt in Hc. lia.
Qed.

Lemma btoa_not_Latin1 s : ~ Latin1 s -> btoa s = Throw InvalidCharacterError.
Proof.
  intro HL. unfold btoa.
  replace (existsb (fun c => 255 <? c) s) with true; [reflexivity|].
  symmetry. destruct (existsb (fun c => 255 <? c) s) eqn:E; [reflexivity|].
  exfalso. apply HL. apply Forall_forall. intros c Hin.
  destruct (N.leb_spec c 255) as [|Hgt]; [assumption|].
  assert (existsb (fun c => 255 <? c) s = true) as Hex.
  { apply existsb_exists. exists c. split; [assumption | now apply N.ltb_lt]. }
  congruence.
Qed.

(** [atob] inverts [btoa]. *)
Lemma atob_btoa s : Latin1 s -> cbind (btoa s) atob = Normal s.
Proof.
  intro HL. rewrite btoa_Latin1 by assumption. cbn [cbind]. unfold atob.
  now rewrite decode_encode.
Qed.

End Base64_facts.

(* ================================================================= *)
(** ** ASCII text through UTF-8 and the percent escapes *)

Section Escape_facts.

Lemma Ascii_cons c s : Ascii (c :: s) <-> c < 128 /\ Ascii s.
Proof. unfold Ascii. split; [intro H; inversion H; auto | intros [? ?]; auto]. Qed.

Lemma Ascii_app s t : Ascii (s ++ t) <-> Ascii s /\ Ascii t.
Proof. apply Forall_app. Qed.

Lemma scalar_values_ascii s : Ascii s -> scalar_values s = s.
Proof.
  induction s as [|c s IH]; intro HA; [reflexivity|].
  apply Ascii_cons in HA as [Hc HA]. cbn [scalar_values].
  unfold is_high_surrogate, is_low_surrogate, in_range.
  cmp. now rewrite IH.
Qed.

Lemma utf8_encode_ascii s : Ascii s -> utf8_encode s = s.
Proof.
  intro HA. unfold utf8_encode. rewrite scalar_values_ascii by assumption.
  induction s as [|c s IH]; [reflexivity|].
  apply Ascii_cons in HA as [Hc HA]. cbn [flat_map].
  unfold utf8_octets at 1. cmp. cbn [app]. now rewrite IH.
Qed.

Lemma utf8_decode_ascii bytes : Ascii bytes -> utf8_decode bytes = bytes.
Proof.
  intro HA. unfold utf8_decode.
  induction bytes as [|b bytes IH]; [reflexivity|].
  apply Ascii_cons in HA as [Hb HA].
  cbn [utf8_decode_from utf8_init u_needed N.eqb].
  unfold utf8_lead. cmp. cbn [app flat_map].
  unfold UTF16EncodeCodePoint at 1. cmp. cbn [app].
  f_equal. apply IH, HA.
Qed.

Lemma hex_value_digit n : n < 16 -> hex_value (hex_digit n) = Some n.
Proof.
  intro Hn. unfold hex_digit. cmp;
    unfold hex_value, is_digit, in_range; cmp; f_equal; lia.
Qed.

Lemma ParseHexOctet_escape c :
  c < 256 -> ParseHexOctet (hex_digit (c / 16)) (hex_digit (c mod 16)) = Some c.
Proof.
  intro Hc. unfold ParseHexOctet. rewrite !hex_value_digit by lia.
  f_equal. lia.
Qed.

Lemma unescaped_not_percent c : URI.unescaped c = true -> c <> 37 /\ c <> 43.
Proof.
  intro H. split; intros ->; discriminate H.
Qed.

Lemma uri_escape_kept c : URI.unescaped c = true -> uri_escape c = [c].
Proof. intro H. unfold uri_escape. now rewrite H. Qed.

Lemma uri_escape_percent c :
  URI.unescaped c = false -> uri_escape c = percent_escape c.
Proof. intro H. unfold uri_escape. now rewrite H. Qed.

(** [encodeURIComponent] on ASCII text escapes character by character. *)
Lemma Encode_ascii s : Ascii s -> URI.Encode s = Normal (flat_map uri_escape s).
Proof.
  induction s as [|c s IH]; intro HA; [reflexivity|].
  apply Ascii_cons in HA as [Hc HA]. cbn [URI.Encode flat_map].
  rewrite (IH HA). destruct (URI.unescaped c) eqn:Hu.
  { now rewrite uri_escape_kept. }
  rewrite uri_escape_percent by assumption.
  unfold is_high_surrogate, is_low_surrogate, in_range. cmp.
  unfold URI.escape_code_point, utf8_octets. cmp.
  cbn [flat_map cmap cbind]. now rewrite app_nil_r.
Qed.

Lemma Decode_from_kept c rest :
  c <> 37 ->
  URI.Decode_from 0 (c :: rest) = cmap (cons c) (URI.Decode_from 0 rest).
Proof.
  intro Hc. cbn [URI.Decode_from]. unfold URI.Decode_step.
  apply N.eqb_neq in Hc. rewrite Hc. reflexivity.
Qed.

Lemma Decode_from_escape c rest :
  c < 128 ->
  URI.Decode_from 0 (percent_escape c ++ rest)
  = cmap (cons c) (URI.Decode_from 0 rest).
Proof.
  intro Hc.
  assert (Hstep : forall h1 h2,
             ParseHexOctet h1 h2 = Some c ->
             URI.Decode_from 0 (37 :: h1 :: h2 :: rest)
             = cmap (cons c) (URI.Decode_from 0 rest)).
  { intros h1 h2 Hp. cbn [URI.Decode_from]. unfold URI.Decode_step.
    cbn [N.eqb Pos.eqb negb]. rewrite Hp. unfold URI.leading_ones.
    destruct (N.ltb_spec c 128); [reflexivity | lia]. }
  apply Hstep, ParseHexOctet_escape. lia.
Qed.

(** [decodeURIComponent] undoes the escapes of ASCII text. *)
Lemma Decode_escape s :
  Ascii s -> URI.Decode (flat_map uri_escape s) = Normal s.
Proof.
  unfold URI.Decode.
  induction s as [|c s IH]; intro HA; [reflexivity|].
  apply Ascii_cons in HA as [Hc HA]. cbn [flat_map].
  destruct (URI.unescaped c) eqn:Hu.
  - rewrite uri_escape_kept by assumption.
    apply unescaped_not_percent in Hu as [Hu _].
    cbn [app]. rewrite Decode_from_kept by assumption.
    now rewrite (IH HA).
  - rewrite uri_escape_percent by assumption.
    rewrite Decode_from_escape by assumption.
    now rewrite (IH HA).
Qed.

(** percent-decode of the URL standard undoes them too. *)
Lemma percent_decode_escape s :
  Ascii s -> UrlEncoded.percent_decode (flat_map uri_escape s) = s.
Proof.
  induction s as [|c s IH]; intro HA; [reflexivity|].
  apply Ascii_cons in HA as [Hc HA]. cbn [flat_map].
  destruct (URI.unescaped c) eqn:Hu.
  - rewrite uri_escape_kept by assumption.
    apply unescaped_not_percent in Hu as [Hu _].
    cbn [app UrlEncoded.percent_decode].
    apply N.eqb_neq in Hu. rewrite Hu. now rewrite (IH HA).
  - rewrite uri_escape_percent by assumption.
    unfold percent_escape. cbn [app UrlEncoded.percent_decode N.eqb Pos.eqb].
    rewrite ParseHexOctet_escape by lia. now rewrite (IH HA).
Qed.

End Escape_facts.

(* ================================================================= *)
(** ** The encoding of one buffer *)

Section Param_facts.

Lemma base64_char_cases c :
  base64_char c = true -> is_alnum c = true \/ c = 43 \/ c = 47 \/ c = 61.
Proof.
  unfold base64_char, Base64.in_alphabet, Base64.index_of, is_alnum.
  destruct (is_upper c); [auto|]. destruct (is_lower c); [auto|].
  destruct (is_digit c); [auto|]. cbn [orb].
  cmp; intro Hcase; try discriminate Hcase; auto.
Qed.

Lemma alnum_unescaped c : is_alnum c = true -> URI.unescaped c = true.
Proof. intro H. unfold URI.unescaped. now rewrite H. Qed.

Lemma param_chars_escape c :
  base64_char c = true -> Forall (fun x => param_char x = true) (uri_escape c).
Proof.
  intro H. apply base64_char_cases in H as [H | [-> | [-> | ->]]].
  - rewrite uri_escape_kept by now apply alnum_unescaped.
    constructor; [|constructor]. unfold param_char. now rewrite H.
  - repeat constructor.
  - repeat constructor.
  - repeat constructor.
Qed.

Lemma param_chars_value text :
  Latin1 text -> Forall (fun x => param_char x = true) (param_value text).
Proof.
  intro HL. unfold param_value.
  pose proof (encode_chars text HL) as HF.
  induction HF as [|c l Hc _ IH]; cbn [flat_map]; [constructor|].
  apply Forall_app. split; [now apply param_chars_escape | assumption].
Qed.

Lemma param_char_bounds c :
  param_char c = true ->
  32 < c /\ c < 127 /\ c <> 35 /\ c <> 38 /\ c <> 43 /\ c <> 61 /\ c <> 63
  /\ Url.in_special_query_set c = false.
Proof.
  unfold param_char, is_alnum, is_upper, is_lower, is_digit, in_range.
  cmp; intro Hcase; try discriminate Hcase;
    (repeat split; try lia; unfold Url.in_special_query_set; cmp; reflexivity).
Qed.

Lemma encode_ascii text : Latin1 text -> Ascii (Base64.encode text).
Proof.
  intro HL. eapply Forall_impl; [|apply encode_chars, HL].
  intros c Hc. apply base64_char_bounds in Hc. lia.
Qed.

(** [encodeURIComponent(btoa(text))] is the escaped base64 of [text]. *)
Lemma encode_param_value text :
  Latin1 text -> encode_param text = Normal (param_value text).
Proof.
  intro HL. unfold encode_param. rewrite btoa_Latin1 by assumption.
  cbn [cbind]. unfold encodeURIComponent.
  now rewrite Encode_ascii by now apply encode_ascii.
Qed.

Lemma encode_param_throws text :
  ~ Latin1 text -> encode_param text = Throw InvalidCharacterError.
Proof.
  intro HL. unfold encode_param. now rewrite btoa_not_Latin1.
Qed.

Lemma Decode_no_percent s :
  Forall (fun c => c <> 37) s -> URI.Decode s = Normal s.
Proof.
  unfold URI.Decode. induction 1 as [|c s Hc _ IH]; [reflexivity|].
  rewrite Decode_from_kept by assumption. now rewrite IH.
Qed.

(** [atob(decodeURIComponent(b))] on the base64 of a text gives the text:
    what the page does with the value [URLSearchParams] hands it. *)
Lemma decode_param_base64 text :
  Latin1 text -> decode_param (Base64.encode text) = Normal text.
Proof.
  intro HL. unfold decode_param, decodeURIComponent.
  rewrite Decode_no_percent.
  - cbn [cbind]. unfold atob. now rewrite decode_encode.
  - eapply Forall_impl; [|apply encode_chars, HL].
    intros c Hc. apply base64_char_bounds in Hc. tauto.
Qed.

(** [atob(decodeURIComponent(v))] on the encoded value itself gives the
    text as well. *)
Lemma decode_param_value text :
  Latin1 text -> decode_param (param_value text) = Normal text.
Proof.
  intro HL. unfold decode_param, decodeURIComponent, param_value.
  rewrite Decode_escape by now apply encode_ascii.
  cbn [cbind]. unfold atob. now rewrite decode_encode.
Qed.

Lemma param_value_nil text : param_value text = [] <-> text = [].
Proof.
  split; [|intros ->; reflexivity].
  unfold param_value.
  destruct text as [|a [|b [|c rest]]]; [reflexivity | | |];
    cbn [Base64.encode flat_map app]; intro H;
    apply app_eq_nil in H as [H _];
    unfold uri_escape, percent_escape in H;
    destruct (URI.unescaped _); discriminate H.
Qed.

Lemma encode_nil text : Base64.encode text = [] <-> text = [].
Proof.
  split; [|intros ->; reflexivity].
  destruct text as [|a [|b [|c rest]]]; [reflexivity | | |]; discriminate.
Qed.

End Param_facts.

(* ================================================================= *)
(** ** The share URL and its query *)

Section Url_facts.

Lemma split_first_none sep l :
  Forall (fun c => c <> sep) l -> UrlEncoded.split_first sep l = (l, None).
Proof.
  induction 1 as [|c l Hc _ IH]; [reflexivity|].
  cbn [UrlEncoded.split_first]. apply N.eqb_neq in Hc. now rewrite Hc, IH.
Qed.

Lemma split_first_app sep x y :
  Forall (fun c => c <> sep) x ->
  UrlEncoded.split_first sep (x ++ sep :: y) = (x, Some y).
Proof.
  induction 1 as [|c l Hc _ IH]; cbn [app UrlEncoded.split_first].
  - now rewrite N.eqb_refl.
  - apply N.eqb_neq in Hc. now rewrite Hc, IH.
Qed.

Lemma split_on_none sep x :
  Forall (fun c => c <> sep) x -> UrlEncoded.split_on sep x = [x].
Proof.
  induction 1 as [|c l Hc _ IH]; [reflexivity|].
  cbn [UrlEncoded.split_on]. apply N.eqb_neq in Hc. now rewrite Hc, IH.
Qed.

Lemma split_on_app sep x y :
  Forall (fun c => c <> sep) x ->
  UrlEncoded.split_on sep (x ++ sep :: y) = x :: UrlEncoded.split_on sep y.
Proof.
  induction 1 as [|c l Hc _ IH]; cbn [app UrlEncoded.split_on].
  - now rewrite N.eqb_refl.
  - apply N.eqb_neq in Hc. now rewrite Hc, IH.
Qed.

Lemma drop_while_head p l :
  Forall (fun c => p c = false) l -> Url.drop_while p l = l.
Proof.
  destruct 1 as [|c l Hc _]; [reflexivity|].
  cbn [Url.drop_while]. now rewrite Hc.
Qed.

Lemma preprocess_id l : Forall (fun c => 32 < c) l -> Url.preprocess l = l.
Proof.
  intro HF. unfold Url.preprocess.
  assert (Hsp : Forall (fun c => Url.is_c0_or_space c = false) l).
  { eapply Forall_impl; [|exact HF]. intros c Hc.
    unfold Url.is_c0_or_space. now apply N.leb_gt. }
  rewrite (drop_while_head _ l Hsp).
  rewrite drop_while_head by now apply Forall_rev.
  rewrite rev_involutive. apply filter_all.
  eapply Forall_impl; [|exact HF]. intros c Hc. cbv beta in Hc.
  unfold Url.is_tab_or_newline. cmp; reflexivity.
Qed.

Lemma percent_encode_query_id q :
  Forall (fun c => query_char c = true) q -> Url.percent_encode_query q = q.
Proof.
  intro HF. unfold Url.percent_encode_query.
  assert (HA : Ascii q /\ Forall (fun c => Url.in_special_query_set c = false) q).
  { split; (eapply Forall_impl; [|exact HF]); intros c Hc;
      cbv beta in Hc; unfold query_char in Hc;
      apply orb_true_iff in Hc as [Hc | Hc];
      try (apply orb_true_iff in Hc as [Hc | Hc]);
      try (apply param_char_bounds in Hc; first [lia | tauto]);
      apply N.eqb_eq in Hc; subst; first [lia | reflexivity]. }
  destruct HA as [HA HS]. rewrite utf8_encode_ascii by assumption.
  induction HS as [|c l Hc _ IH]; cbn [flat_map]; [reflexivity|].
  rewrite Hc. cbn [app]. f_equal. apply IH.
  - now inversion HF.
  - now inversion HA.
Qed.

Lemma param_query_char c : param_char c = true -> query_char c = true.
Proof. intro H. unfold query_char. now rewrite H. Qed.

Lemma query_char_bounds c :
  query_char c = true -> 32 < c /\ c < 128 /\ c <> 35 /\ c <> 63.
Proof.
  unfold query_char. intro Hc.
  apply orb_true_iff in Hc as [Hc | Hc];
    [apply orb_true_iff in Hc as [Hc | Hc]|].
  - apply param_char_bounds in Hc. repeat split; try lia; tauto.
  - apply N.eqb_eq in Hc. lia.
  - apply N.eqb_eq in Hc. lia.
Qed.

Lemma origin_char_bounds c :
  origin_char c = true -> 32 < c /\ c <> 35 /\ c <> 63.
Proof.
  unfold origin_char. cmp; intro Hcase; try discriminate Hcase; lia.
Qed.

Lemma share_query_chars eh ec ej :
  Forall (fun c => param_char c = true) eh ->
  Forall (fun c => param_char c = true) ec ->
  Forall (fun c => param_char c = true) ej ->
  Forall (fun c => query_char c = true) (share_query eh ec ej).
Proof.
  intros Hh Hc Hj. unfold share_query.
  repeat (apply Forall_app; split);
    try (eapply Forall_impl; [|eassumption]; apply param_query_char);
    repeat constructor.
Qed.

(** The [search] of the page opened at a share URL is [?] and the query
    exactly as [generateShareUrl] wrote it. *)
Lemma search_share_url origin eh ec ej :
  Forall (fun c => origin_char c = true) origin ->
  Forall (fun c => param_char c = true) eh ->
  Forall (fun c => param_char c = true) ec ->
  Forall (fun c => param_char c = true) ej ->
  Url.search (origin ++ lit "/?html=" ++ eh ++ lit "&css=" ++ ec ++ lit "&js=" ++ ej)
  = 63 :: share_query eh ec ej.
Proof.
  intros Ho Hh Hc Hj.
  pose proof (share_query_chars eh ec ej Hh Hc Hj) as HQ.
  replace (origin ++ lit "/?html=" ++ eh ++ lit "&css=" ++ ec ++ lit "&js=" ++ ej)
    with ((origin ++ [47]) ++ 63 :: share_query eh ec ej)
    by (rewrite <- app_assoc; reflexivity).
  assert (Hpre : Forall (fun c => 32 < c /\ c <> 35 /\ c <> 63) (origin ++ [47])).
  { apply Forall_app. split.
    - eapply Forall_impl; [|exact Ho]. apply origin_char_bounds.
    - repeat constructor; lia. }
  assert (Hq : Forall (fun c => 32 < c /\ c <> 35) (share_query eh ec ej)).
  { eapply Forall_impl; [|exact HQ]. intros c Hc'.
    apply query_char_bounds in Hc'. tauto. }
  unfold Url.search, Url.query.
  rewrite preprocess_id.
  2:{ apply Forall_app. split; [|constructor; [lia|]].
      - eapply Forall_impl; [|exact Hpre]. cbv beta. tauto.
      - eapply Forall_impl; [|exact Hq]. cbv beta. tauto. }
  rewrite split_first_none.
  2:{ apply Forall_app. split; [|constructor; [lia|]].
      - eapply Forall_impl; [|exact Hpre]. cbv beta. tauto.
      - eapply Forall_impl; [|exact Hq]. cbv beta. tauto. }
  rewrite split_first_app.
  2:{ eapply Forall_impl; [|exact Hpre]. cbv beta. tauto. }
  rewrite percent_encode_query_id by assumption.
  reflexivity.
Qed.

Lemma parse_sequences_cons name value others :
  name <> [] -> Forall (fun c => c <> 61) name ->
  UrlEncoded.parse_sequences ((name ++ 61 :: value) :: others)
  = (UrlEncoded.decode_component name, UrlEncoded.decode_component value)
      :: UrlEncoded.parse_sequences others.
Proof.
  intros Hne Hname. destruct name as [|c name]; [congruence|].
  cbn [app UrlEncoded.parse_sequences].
  change (c :: name ++ 61 :: value) with ((c :: name) ++ 61 :: value).
  now rewrite split_first_app.
Qed.

Lemma plus_to_space_id l :
  Forall (fun c => c <> 43) l -> UrlEncoded.plus_to_space l = l.
Proof.
  induction 1 as [|c l Hc _ IH]; [reflexivity|].
  unfold UrlEncoded.plus_to_space in *. cbn [map].
  apply N.eqb_neq in Hc. now rewrite Hc, IH.
Qed.

(** What [URLSearchParams] makes of an encoded value: the base64 text. *)
Lemma decode_component_value text :
  Latin1 text -> UrlEncoded.decode_component (param_value text) = Base64.encode text.
Proof.
  intro HL. unfold UrlEncoded.decode_component.
  rewrite plus_to_space_id.
  - unfold param_value. rewrite percent_decode_escape by now apply encode_ascii.
    apply utf8_decode_ascii. now apply encode_ascii.
  - eapply Forall_impl; [|apply param_chars_value, HL].
    intros c Hc. apply param_char_bounds in Hc. tauto.
Qed.

(** The parameters [URLSearchParams] finds in the query of a share URL. *)
Lemma params_share_query h c j :
  Latin1 h -> Latin1 c -> Latin1 j ->
  URLSearchParams (63 :: share_query (param_value h) (param_value c) (param_value j))
  = [ (lit "html", Base64.encode h); (lit "css", Base64.encode c);
      (lit "js", Base64.encode j) ].
Proof.
  intros Hh Hc Hj.
  pose proof (param_chars_value h Hh) as Ph.
  pose proof (param_chars_value c Hc) as Pc.
  pose proof (param_chars_value j Hj) as Pj.
  pose proof (share_query_chars _ _ _ Ph Pc Pj) as HQ.
  cbn [URLSearchParams N.eqb Pos.eqb]. unfold UrlEncoded.parse.
  rewrite utf8_encode_ascii.
  2:{ eapply Forall_impl; [|exact HQ]. intros x Hx.
      apply query_char_bounds in Hx. tauto. }
  replace (share_query (param_value h) (param_value c) (param_value j))
    with ((lit "html" ++ 61 :: param_value h)
            ++ 38 :: (lit "css" ++ 61 :: param_value c)
            ++ 38 :: (lit "js" ++ 61 :: param_value j)).
  2:{ unfold share_query. cbn [lit list_ascii_of_string map app].
      reflexivity. }
  assert (Hno : forall v, Forall (fun x => param_char x = true) v ->
                          Forall (fun x => x <> 38) v).
  { intros v Hv. eapply Forall_impl; [|exact Hv].
    intros x Hx. apply param_char_bounds in Hx. tauto. }
  rewrite split_on_app.
  2:{ apply Forall_app. split; [repeat constructor; discriminate|].
      constructor; [discriminate | now apply Hno]. }
  rewrite split_on_app.
  2:{ apply Forall_app. split; [repeat constructor; discriminate|].
      constructor; [discriminate | now apply Hno]. }
  rewrite split_on_none.
  2:{ apply Forall_app. split; [repeat constructor; discriminate|].
      constructor; [discriminate | now apply Hno]. }
  rewrite !parse_sequences_cons
    by (try discriminate; repeat constructor; discriminate).
  rewrite !decode_component_value by assumption.
  reflexivity.
Qed.

End Url_facts.

(* ================================================================= *)
(** ** The effect that reads the query string *)

Section UrlEffect_facts.

Import App.

Lemma decode_into_outcome set p st :
  decode_into set p st
  = match outcome p with
    | Skipped => (Normal tt, st)
    | Decoded text => set (Str text) st
    | Failed e => (Throw e, st)
    end.
Proof.
  destruct p as [[|c rest]|]; try reflexivity.
  unfold decode_into, outcome, decode_param, bind, lift.
  destruct (cbind (decodeURIComponent (c :: rest)) atob); reflexivity.
Qed.

Lemma outcome_truthy p : truthy p = false -> outcome p = Skipped.
Proof. destruct p as [[|c rest]|]; [reflexivity | discriminate | reflexivity]. Qed.

Lemma outcome_failed v e :
  decode_param v = Throw e -> outcome (Some v) = Failed e /\ truthy (Some v) = true.
Proof.
  intro H. destruct v as [|c rest]; [discriminate H|].
  unfold outcome. rewrite H. split; reflexivity.
Qed.

(** The [try] block on the three parameters: it throws exactly when one
    of them fails, and else leaves each buffer as its parameter's outcome
    says. *)
Lemma try_block uh uc uj st :
  let block := decode_into setHtmlCode uh ;;
               decode_into setCssCode uc ;;
               decode_into setJsCode uj in
  match outcome uh, outcome uc, outcome uj with
  | Failed e, _, _ => exists st', block st = (Throw e, st')
  | _, Failed e, _ => exists st', block st = (Throw e, st')
  | _, _, Failed e => exists st', block st = (Throw e, st')
  | oh, oc, oj =>
      block st
      = (Normal tt,
         {| htmlCode := written oh (htmlCode st);
            cssCode := written oc (cssCode st);
            jsCode := written oj (jsCode st);
            srcDoc := srcDoc st; console := console st |})
  end.
Proof.
  cbv zeta. unfold bind. rewrite !decode_into_outcome.
  destruct st as [h c j d k].
  destruct (outcome uh) as [|th|eh]; cbn;
    rewrite ?decode_into_outcome;
    destruct (outcome uc) as [|tc|ec]; cbn;
    rewrite ?decode_into_outcome;
    destruct (outcome uj) as [|tj|ej]; cbn; eauto.
Qed.

(** The [catch] block: the three buffers are the default template's. *)
Lemma catch_block e st :
  let handler :=
    log (ConsoleError (lit "Failed to decode code from URL") e) ;;
    setHtmlCode (Str (html TEMPLATES_default)) ;;
    setCssCode (Str (css TEMPLATES_default)) ;;
    setJsCode (Str (js TEMPLATES_default)) in
  fst (handler st) = Normal tt /\ buffers (snd (handler st)) = default_buffers.
Proof. split; reflexivity. Qed.

End UrlEffect_facts.

(* ================================================================= *)
(** ** A share link, from [generateShareUrl] back into the buffers *)

Section Share_facts.

Import App.

Lemma generateShareUrl_Latin1 origin st :
  Latin1 (ToString (htmlCode st)) ->
  Latin1 (ToString (cssCode st)) ->
  Latin1 (ToString (jsCode st)) ->
  generateShareUrl origin st
  = Normal (origin ++ lit "/?html=" ++ param_value (ToString (htmlCode st))
                   ++ lit "&css=" ++ param_value (ToString (cssCode st))
                   ++ lit "&js=" ++ param_value (ToString (jsCode st))).
Proof.
  intros Hh Hc Hj. unfold generateShareUrl.
  fold (encode_param (ToString (htmlCode st))).
  fold (encode_param (ToString (cssCode st))).
  fold (encode_param (ToString (jsCode st))).
  rewrite !encode_param_value by assumption. reflexivity.
Qed.

Lemma generateShareUrl_not_Latin1 origin st :
  ~ (Latin1 (ToString (htmlCode st)) /\ Latin1 (ToString (cssCode st))
     /\ Latin1 (ToString (jsCode st))) ->
  generateShareUrl origin st = Throw InvalidCharacterError.
Proof.
  intro Hnot. unfold generateShareUrl.
  fold (encode_param (ToString (htmlCode st))).
  fold (encode_param (ToString (cssCode st))).
  fold (encode_param (ToString (jsCode st))).
  destruct (latin1b (ToString (htmlCode st))) eqn:Eh.
  2:{ rewrite encode_param_throws; [reflexivity|].
      intro H. apply latin1b_spec in H. congruence. }
  apply latin1b_spec in Eh. rewrite (encode_param_value _ Eh). cbn [cbind].
  destruct (latin1b (ToString (cssCode st))) eqn:Ec.
  2:{ rewrite encode_param_throws; [reflexivity|].
      intro H. apply latin1b_spec in H. congruence. }
  apply latin1b_spec in Ec. rewrite (encode_param_value _ Ec). cbn [cbind].
  rewrite encode_param_throws; [reflexivity|]. tauto.
Qed.

Lemma truthy_encoded text :
  truthy (Some (Base64.encode text)) = match text with [] => false | _ :: _ => true end.
Proof. destruct text as [|a [|b [|c rest]]]; reflexivity. Qed.

Lemma outcome_encoded text :
  Latin1 text ->
  outcome (Some (Base64.encode text))
  = match text with [] => Skipped | _ :: _ => Decoded text end.
Proof.
  intro HL. destruct text as [|a text']; [reflexivity|].
  pose proof (decode_param_base64 _ HL) as Hd.
  destruct (Base64.encode (a :: text')) as [|x rest] eqn:E.
  - discriminate (proj1 (encode_nil _) E).
  - unfold outcome. now rewrite Hd.
Qed.

(** The effect on the query of a share URL: every buffer that was not
    empty is read back, the others stay. *)
Lemma urlEffect_share_query h c j st :
  Latin1 h -> Latin1 c -> Latin1 j ->
  urlEffect (63 :: share_query (param_value h) (param_value c) (param_value j)) st
  = (Normal tt,
     {| htmlCode := match h with [] => htmlCode st | _ :: _ => Str h end;
        cssCode := match c with [] => cssCode st | _ :: _ => Str c end;
        jsCode := match j with [] => jsCode st | _ :: _ => Str j end;
        srcDoc := srcDoc st; console := console st |}).
Proof.
  intros Hh Hc Hj. unfold urlEffect.
  rewrite params_share_query by assumption. cbv zeta.
  change (get _ (lit "html")) with (Some (Base64.encode h)).
  change (get _ (lit "css")) with (Some (Base64.encode c)).
  change (get _ (lit "js")) with (Some (Base64.encode j)).
  pose proof (try_block (Some (Base64.encode h)) (Some (Base64.encode c))
                (Some (Base64.encode j)) st) as Hb.
  cbv zeta in Hb. rewrite !outcome_encoded in Hb by assumption.
  rewrite !truthy_encoded. unfold try_catch.
  destruct st as [sh sc sj sd sk].
  destruct h as [|h0 h'], c as [|c0 c'], j as [|j0 j'];
    cbn [orb]; try rewrite Hb; reflexivity.
Qed.

End Share_facts.

(* ================================================================= *)
(** ** The template loader *)

Section Template_facts.

Import App.

(** A name of the registry: nothing changes if the user declines, the
    three buffers are the template's if the user accepts. *)
Lemma loadTemplate_entry confirm name t st :
  own_property TEMPLATES name = Some t ->
  loadTemplate confirm name st
  = if confirm (lit "Loading a template will overwrite your current code. Are you sure?")
    then (Normal tt,
          {| htmlCode := Str (html t); cssCode := Str (css t); jsCode := Str (js t);
             srcDoc := srcDoc st; console := console st |})
    else (Normal tt, st).
Proof.
  intro Hown. destruct name as [|x name]; [discriminate Hown|].
  unfold loadTemplate, TEMPLATES_lookup. rewrite Hown.
  cbn [property_truthy field].
  destruct (confirm _); reflexivity.
Qed.

(** A name that is neither in the registry nor a property of
    [Object.prototype]: the buffers stay, whatever the user would answer. *)
Lemma loadTemplate_no_property confirm name st :
  own_property TEMPLATES name = None ->
  existsb (jsstring_eqb name) Object_prototype = false ->
  fst (loadTemplate confirm name st) = Normal tt
  /\ buffers (exec (loadTemplate confirm name) st) = buffers st.
Proof.
  intros Hown Hproto. destruct name as [|x name]; [split; reflexivity|].
  unfold exec, loadTemplate, TEMPLATES_lookup. rewrite Hown, Hproto.
  split; reflexivity.
Qed.

(** A name the user declines is never loaded. *)
Lemma loadTemplate_declined name st :
  buffers (exec (loadTemplate (fun _ => false) name) st) = buffers st.
Proof.
  destruct name as [|x name]; [reflexivity|].
  unfold exec, loadTemplate.
  destruct (property_truthy (TEMPLATES_lookup (x :: name))); reflexivity.
Qed.

End Template_facts.

(* ================================================================= *)
(** ** The properties of the specification *)

Section Claims.

Import App.

(** C1: the round trip must give back every triple of single-byte text
    buffers, the empty string included, and the code breaks it at an empty
    buffer.  The share link of the triple (empty markup, "p{color:red}",
    "console.log(1)"), which the user gets by clearing the markup editor
    and clicking the share button, is produced with an [html=] parameter of
    empty value; on the page that opens it the test [if (urlHtml)] takes
    the empty string for a missing parameter, and the markup buffer holds
    the default template's text instead of the empty string. *)
Lemma round_trip_loses_empty_buffer :
  exists url,
    generateShareUrl (lit "https://example.com")
      {| htmlCode := Str []; cssCode := Str (lit "p{color:red}");
         jsCode := Str (lit "console.log(1)"); srcDoc := []; console := [] |}
    = Normal url
    /\ buffers (exec (urlEffect (Url.search url)) initial_state)
       <> (Str [], Str (lit "p{color:red}"), Str (lit "console.log(1)"))
    /\ buffers (exec (urlEffect (Url.search url)) initial_state)
       = (Str (html TEMPLATES_default), Str (lit "p{color:red}"),
          Str (lit "console.log(1)")).
Proof.
  eexists. split; [vm_compute; reflexivity|].
  split; [vm_compute; intro H; discriminate H | vm_compute; reflexivity].
Qed.

(** What the code does with the share link of any triple of text buffers
    in the single-byte range (every code unit at most U+00FF):
    [generateShareUrl] returns a URL, and the effect that decodes the query
    parameters of that URL at mount recovers exactly every buffer that is
    not empty, so that a triple of three non-empty buffers comes back
    exactly; where a buffer is empty the page is left with the default
    template's text. *)
Theorem share_link_round_trip origin h c j st :
  Forall (fun x => origin_char x = true) origin ->
  Latin1 h -> Latin1 c -> Latin1 j ->
  buffers st = (Str h, Str c, Str j) ->
  exists url,
    generateShareUrl origin st = Normal url
    /\ fst (urlEffect (Url.search url) initial_state) = Normal tt
    /\ buffers (exec (urlEffect (Url.search url)) initial_state)
       = (restored h (html TEMPLATES_default),
          restored c (css TEMPLATES_default),
          restored j (js TEMPLATES_default)).
Proof.
  intros Ho Hh Hc Hj Hst.
  destruct st as [sh sc sj sd sk]. injection Hst as -> -> ->.
  eexists. split.
  - apply generateShareUrl_Latin1; assumption.
  - cbn [htmlCode cssCode jsCode ToString].
    rewrite search_share_url by (try apply param_chars_value; assumption).
    unfold exec. rewrite urlEffect_share_query by assumption.
    split; [reflexivity|].
    destruct h, c, j; reflexivity.
Qed.

(** The round trip at the triple of the specification's scenario. *)
Lemma share_link_round_trip_example :
  exists url,
    generateShareUrl (lit "https://example.com")
      {| htmlCode := Str (lit "<p>hi</p>"); cssCode := Str (lit "p{color:red}");
         jsCode := Str (lit "console.log(1)"); srcDoc := []; console := [] |}
    = Normal url
    /\ fst (urlEffect (Url.search url) initial_state) = Normal tt
    /\ buffers (exec (urlEffect (Url.search url)) initial_state)
       = (Str (lit "<p>hi</p>"), Str (lit "p{color:red}"),
          Str (lit "console.log(1)")).
Proof.
  apply (share_link_round_trip (lit "https://example.com")
           (lit "<p>hi</p>") (lit "p{color:red}") (lit "console.log(1)")).
  - apply Forall_forall, forallb_forall. vm_compute. reflexivity.
  - apply latin1b_spec. vm_compute. reflexivity.
  - apply latin1b_spec. vm_compute. reflexivity.
  - apply latin1b_spec. vm_compute. reflexivity.
  - reflexivity.
Defined.

(** C2: if one of the parameters [html], [css], [js] is present in the
    query string and decoding it throws (a malformed percent escape or
    malformed base64), then after the decode effect the three buffers are
    exactly the default template's markup, style and script, whatever the
    other parameters hold and whatever was decoded before the throw; the
    effect itself completes normally. *)
Theorem decode_failure_resets_all_buffers search st name v e :
  In name param_names ->
  get (URLSearchParams search) name = Some v ->
  decode_param v = Throw e ->
  fst (urlEffect search st) = Normal tt
  /\ buffers (exec (urlEffect search) st) = default_buffers.
Proof.
  intros Hin Hget Hthrow.
  apply outcome_failed in Hthrow as [Hout Htruthy]. rewrite <- Hget in *.
  unfold exec, urlEffect. cbv zeta.
  set (uh := get (URLSearchParams search) (lit "html")) in *.
  set (uc := get (URLSearchParams search) (lit "css")) in *.
  set (uj := get (URLSearchParams search) (lit "js")) in *.
  assert (Hguard : truthy uh || truthy uc || truthy uj = true).
  { destruct Hin as [<- | [<- | [<- | []]]];
      subst uh uc uj; rewrite Htruthy; rewrite ?orb_true_r; reflexivity. }
  assert (Hfail : outcome uh = Failed e \/ outcome uc = Failed e
                  \/ outcome uj = Failed e).
  { destruct Hin as [<- | [<- | [<- | []]]]; auto. }
  rewrite Hguard. unfold try_catch.
  pose proof (try_block uh uc uj st) as Hb. cbv zeta in Hb.
  destruct (outcome uh), (outcome uc), (outcome uj);
    try (destruct Hfail as [Hf | [Hf | Hf]]; discriminate Hf);
    destruct Hb as [st' ->]; apply catch_block.
Qed.

(** A well-formed [html] and a [css] that is a lone [%]: the markup was
    decoded before the throw and is reset with the rest. *)
Lemma decode_failure_resets_all_buffers_example :
  fst (urlEffect (lit "?html=PHA%2BaGk8L3A%2B&css=%25") initial_state) = Normal tt
  /\ buffers (exec (urlEffect (lit "?html=PHA%2BaGk8L3A%2B&css=%25")) initial_state)
     = default_buffers.
Proof.
  apply (decode_failure_resets_all_buffers _ _ (lit "css") (lit "%") URIError).
  - right. left. reflexivity.
  - vm_compute. reflexivity.
  - vm_compute. reflexivity.
Defined.

(** C3, as stated, fails on the code: with a character outside the
    single-byte range in a buffer (here U+1F600 in the style buffer, the
    surrogate pair D83D DE00), [generateShareUrl] throws. *)
Lemma encode_throws_outside_single_byte_range :
  generateShareUrl (lit "https://example.com")
    {| htmlCode := Str (lit "<p>hi</p>"); cssCode := Str [0xD83D; 0xDE00];
       jsCode := Str (lit "console.log(1)"); srcDoc := []; console := [] |}
  = Throw InvalidCharacterError.
Proof. vm_compute. reflexivity. Qed.

(** C3, amended: when every character of the three buffers is in the
    single-byte range, the encode operation does not throw and corrupts
    nothing: each parameter value of the URL it returns decodes
    ([atob] after [decodeURIComponent]) to exactly the text of its
    buffer.  When a buffer holds a character outside that range, the
    operation throws InvalidCharacterError and returns no URL. *)
Theorem encode_total_on_single_byte_range origin st :
  let h := ToString (htmlCode st) in
  let c := ToString (cssCode st) in
  let j := ToString (jsCode st) in
  if latin1b h && latin1b c && latin1b j then
    exists eh ec ej,
      generateShareUrl origin st
      = Normal (origin ++ lit "/?html=" ++ eh ++ lit "&css=" ++ ec ++ lit "&js=" ++ ej)
      /\ decode_param eh = Normal h
      /\ decode_param ec = Normal c
      /\ decode_param ej = Normal j
  else generateShareUrl origin st = Throw InvalidCharacterError.
Proof.
  cbv zeta.
  destruct (latin1b (ToString (htmlCode st))) eqn:Eh;
    destruct (latin1b (ToString (cssCode st))) eqn:Ec;
    destruct (latin1b (ToString (jsCode st))) eqn:Ej; cbn [andb].
  1:{ apply latin1b_spec in Eh, Ec, Ej.
      exists (param_value (ToString (htmlCode st))),
        (param_value (ToString (cssCode st))),
        (param_value (ToString (jsCode st))).
      split; [now apply generateShareUrl_Latin1|].
      repeat split; now apply decode_param_value. }
  all: apply generateShareUrl_not_Latin1; intros [Hh [Hc Hj]];
    apply latin1b_spec in Hh, Hc, Hj; congruence.
Qed.

(** C4: for every triple (markup, style, script) the composed document is
    one fixed skeleton around the three texts: the style text verbatim
    between [<style>] and [</style>], then [<body>], the markup text
    verbatim, then the script text verbatim between [<script>] and
    [</script>], then [</body>]; so the style region comes before the
    markup and the script region after it, and no character of the texts
    is escaped. *)
Theorem composed_document_layout :
  exists a b c d e f : jsstring,
    forall markup style script,
      fullSrcDoc (Str markup) (Str style) (Str script)
      = a ++ lit "<style>" ++ style ++ lit "</style>"
          ++ b ++ lit "<body>" ++ c ++ markup
          ++ d ++ lit "<script>" ++ script ++ lit "</script>"
          ++ e ++ lit "</body>" ++ f.
Proof.
  exists (lines [ []; lit "      <!DOCTYPE html>"; lit "      <html>";
                  lit "      <head>"; lit "        " ]),
    (lines [ []; lit "      </head>"; lit "      " ]),
    (lines [ []; lit "        " ]),
    (lines [ []; lit "        " ]),
    (lines [ []; lit "      " ]),
    (lines [ []; lit "      </html>"; lit "    " ]).
  intros markup style script. unfold fullSrcDoc.
  cbn [lines ToString]. rewrite <- !app_assoc. reflexivity.
Qed.

(** C5, as stated, fails on the function: "constructor" is not in the
    registry, yet [TEMPLATES["constructor"]] is the function every object
    literal inherits from [Object.prototype], which is truthy; once the
    prompt is accepted the three buffers are overwritten with
    [undefined]. *)
Theorem loadTemplate_inherited_name :
  own_property TEMPLATES (lit "constructor") = None
  /\ buffers (exec (loadTemplate (fun _ => true) (lit "constructor")) initial_state)
     = (Undefined, Undefined, Undefined)
  /\ console (exec (loadTemplate (fun _ => true) (lit "constructor")) initial_state)
     = [].
Proof. repeat split; vm_compute; reflexivity. Qed.

(** No value of the template select, the only caller of [loadTemplate], is
    such an inherited name. *)
Lemma select_values_not_inherited name :
  In name Ui.select_values -> existsb (jsstring_eqb name) Object_prototype = false.
Proof.
  intros [<- | [<- | [<- | [<- | []]]]]; reflexivity.
Qed.

(** C5, amended: for every template name that is not the name of a
    property inherited from [Object.prototype]: loading never throws; if
    the name is not in the registry, none of the three buffers changes; if
    it is in the registry and the user declines the prompt, nothing
    changes; if the user accepts, the three buffers are set together to
    exactly the template's markup, style and script. *)
Theorem loadTemplate_contract confirm name st :
  existsb (jsstring_eqb name) Object_prototype = false ->
  fst (loadTemplate confirm name st) = Normal tt
  /\ match own_property TEMPLATES name with
     | None => buffers (exec (loadTemplate confirm name) st) = buffers st
     | Some t =>
         if confirm (lit "Loading a template will overwrite your current code. Are you sure?")
         then buffers (exec (loadTemplate confirm name) st)
              = (Str (html t), Str (css t), Str (js t))
         else exec (loadTemplate confirm name) st = st
     end.
Proof.
  intro Hproto. destruct (own_property TEMPLATES name) as [t|] eqn:Hown.
  - unfold exec. rewrite (loadTemplate_entry confirm name t st Hown).
    destruct (confirm _); split; reflexivity.
  - apply loadTemplate_no_property; assumption.
Qed.

(** A key of the registry, accepted; and a name no object has. *)
Lemma loadTemplate_contract_example :
  (fst (loadTemplate (fun _ => true) (lit "simpleCard") initial_state) = Normal tt
   /\ buffers (exec (loadTemplate (fun _ => true) (lit "simpleCard")) initial_state)
      = (Str simpleCard_html, Str simpleCard_css, Str simpleCard_js))
  /\ (fst (loadTemplate (fun _ => true) (lit "nope") initial_state) = Normal tt
      /\ buffers (exec (loadTemplate (fun _ => true) (lit "nope")) initial_state)
         = buffers initial_state).
Proof.
  split.
  - exact (loadTemplate_contract (fun _ => true) (lit "simpleCard") initial_state
             eq_refl).
  - exact (loadTemplate_contract (fun _ => true) (lit "nope") initial_state eq_refl).
Defined.

(** C6: when none of [html], [css], [js] is in the query string, the
    decode effect decodes nothing and changes nothing: it completes
    normally, writes nothing to the console, and the state is the one it
    started from; at mount the three buffers therefore hold the default
    template's texts. *)
Theorem no_parameters_no_decoding search st :
  get (URLSearchParams search) (lit "html") = None ->
  get (URLSearchParams search) (lit "css") = None ->
  get (URLSearchParams search) (lit "js") = None ->
  urlEffect search st = (Normal tt, st)
  /\ buffers (exec (urlEffect search) initial_state) = default_buffers.
Proof.
  intros Hh Hc Hj. unfold exec, urlEffect. cbv zeta.
  rewrite Hh, Hc, Hj. split; reflexivity.
Qed.

(** A query string with other parameters only. *)
Lemma no_parameters_no_decoding_example :
  urlEffect (lit "?theme=dark&id=7") initial_state = (Normal tt, initial_state)
  /\ buffers (exec (urlEffect (lit "?theme=dark&id=7")) initial_state) = default_buffers.
Proof.
  apply (no_parameters_no_decoding (lit "?theme=dark&id=7") initial_state);
    vm_compute; reflexivity.
Defined.

(** C7, as stated, fails on the code: for a triple with a character
    outside the single-byte range (here U+4F60 in the script buffer) the
    encode operation produces no URL, it throws. *)
Lemma no_share_url_outside_single_byte_range :
  generateShareUrl (lit "https://example.com")
    {| htmlCode := Str (lit "<p>hi</p>"); cssCode := Str (lit "p{color:red}");
       jsCode := Str [0x4F60]; srcDoc := []; console := [] |}
  = Throw InvalidCharacterError.
Proof. vm_compute. reflexivity. Qed.

(** C7, amended: for every triple of buffers in the single-byte range,
    the encode operation returns the URL
    <origin>/?html=<enc_markup>&css=<enc_style>&js=<enc_script>, the three
    parameters in that order, where each value is
    [encodeURIComponent(btoa(buffer))] and consists of letters, digits
    and [%] only; an empty buffer still has its parameter, with an empty
    value. *)
Theorem share_url_form origin st :
  let h := ToString (htmlCode st) in
  let c := ToString (cssCode st) in
  let j := ToString (jsCode st) in
  Latin1 h -> Latin1 c -> Latin1 j ->
  exists eh ec ej,
    generateShareUrl origin st
    = Normal (origin ++ lit "/?html=" ++ eh ++ lit "&css=" ++ ec ++ lit "&js=" ++ ej)
    /\ encode_param h = Normal eh
    /\ encode_param c = Normal ec
    /\ encode_param j = Normal ej
    /\ Forall (fun x => param_char x = true) (eh ++ ec ++ ej)
    /\ (eh = [] <-> h = []) /\ (ec = [] <-> c = []) /\ (ej = [] <-> j = []).
Proof.
  cbv zeta. intros Hh Hc Hj.
  exists (param_value (ToString (htmlCode st))),
    (param_value (ToString (cssCode st))),
    (param_value (ToString (jsCode st))).
  split; [now apply generateShareUrl_Latin1|].
  repeat (split; [now apply encode_param_value|]).
  split; [|repeat split; apply param_value_nil].
  repeat (apply Forall_app; split); now apply param_chars_value.
Qed.

(** The form of the URL with an empty style buffer. *)
Lemma share_url_form_example :
  exists eh ec ej,
    generateShareUrl (lit "https://example.com")
      {| htmlCode := Str (lit "<p>hi</p>"); cssCode := Str [];
         jsCode := Str (lit "console.log(1)"); srcDoc := []; console := [] |}
    = Normal (lit "https://example.com" ++ lit "/?html=" ++ eh ++ lit "&css=" ++ ec
                  ++ lit "&js=" ++ ej)
    /\ encode_param (lit "<p>hi</p>") = Normal eh
    /\ encode_param [] = Normal ec
    /\ encode_param (lit "console.log(1)") = Normal ej
    /\ Forall (fun x => param_char x = true) (eh ++ ec ++ ej)
    /\ (eh = [] <-> lit "<p>hi</p>" = []) /\ (ec = [] <-> @nil code_unit = [])
    /\ (ej = [] <-> lit "console.log(1)" = []).
Proof.
  apply (share_url_form (lit "https://example.com")
           {| htmlCode := Str (lit "<p>hi</p>"); cssCode := Str [];
              jsCode := Str (lit "console.log(1)"); srcDoc := []; console := [] |});
    apply latin1b_spec; vm_compute; reflexivity.
Defined.

(** C8: when at least one of [html], [css], [js] is present and every
    present parameter decodes without throwing, the decode effect
    overwrites only buffers whose parameter is present: a buffer whose
    parameter is absent holds after the effect what it held before, and
    every buffer is its prior value or the decoded text of its parameter. *)
Theorem decode_overwrites_only_present_parameters search st :
  let P := URLSearchParams search in
  (exists name, In name param_names /\ get P name <> None) ->
  (forall name v, In name param_names -> get P name = Some v ->
                  exists text, decode_param v = Normal text) ->
  let st' := exec (urlEffect search) st in
  (get P (lit "html") = None -> htmlCode st' = htmlCode st)
  /\ (get P (lit "css") = None -> cssCode st' = cssCode st)
  /\ (get P (lit "js") = None -> jsCode st' = jsCode st)
  /\ htmlCode st' = written (outcome (get P (lit "html"))) (htmlCode st)
  /\ cssCode st' = written (outcome (get P (lit "css"))) (cssCode st)
  /\ jsCode st' = written (outcome (get P (lit "js"))) (jsCode st).
Proof.
  cbv zeta. intros _ Hok.
  assert (Hnofail : forall name, In name param_names ->
                      forall e, outcome (get (URLSearchParams search) name) <> Failed e).
  { intros name Hin e Hout.
    destruct (get (URLSearchParams search) name) as [[|x rest]|] eqn:Hget;
      try discriminate Hout.
    destruct (Hok _ _ Hin Hget) as [text Htext].
    unfold outcome in Hout. rewrite Htext in Hout. discriminate Hout. }
  pose proof (Hnofail (lit "html") (or_introl eq_refl)) as Nh.
  pose proof (Hnofail (lit "css") (or_intror (or_introl eq_refl))) as Nc.
  pose proof (Hnofail (lit "js") (or_intror (or_intror (or_introl eq_refl)))) as Nj.
  unfold exec, urlEffect. cbv zeta.
  set (uh := get (URLSearchParams search) (lit "html")) in *.
  set (uc := get (URLSearchParams search) (lit "css")) in *.
  set (uj := get (URLSearchParams search) (lit "js")) in *.
  assert (Hst : snd ((if truthy uh || truthy uc || truthy uj
                      then try_catch
                             (decode_into setHtmlCode uh ;;
                              decode_into setCssCode uc ;;
                              decode_into setJsCode uj)
                             (fun e =>
                                log (ConsoleError (lit "Failed to decode code from URL") e) ;;
                                setHtmlCode (Str (html TEMPLATES_default)) ;;
                                setCssCode (Str (css TEMPLATES_default)) ;;
                                setJsCode (Str (js TEMPLATES_default)))
                      else ret tt) st)
                = {| htmlCode := written (outcome uh) (htmlCode st);
                     cssCode := written (outcome uc) (cssCode st);
                     jsCode := written (outcome uj) (jsCode st);
                     srcDoc := srcDoc st; console := console st |}).
  { destruct (truthy uh || truthy uc || truthy uj) eqn:Hguard.
    - unfold try_catch.
      pose proof (try_block uh uc uj st) as Hb. cbv zeta in Hb.
      destruct (outcome uh) as [|th|eh]; [| |now destruct (Nh eh)];
        (destruct (outcome uc) as [|tc|ec]; [| |now destruct (Nc ec)]);
        (destruct (outcome uj) as [|tj|ej]; [| |now destruct (Nj ej)]);
        rewrite Hb; reflexivity.
    - apply orb_false_iff in Hguard as [Hguard Hj].
      apply orb_false_iff in Hguard as [Hh Hc].
      rewrite (outcome_truthy _ Hh), (outcome_truthy _ Hc), (outcome_truthy _ Hj).
      destruct st; reflexivity. }
  rewrite Hst. cbn [htmlCode cssCode jsCode].
  repeat split; try reflexivity; intros ->; reflexivity.
Qed.

(** Only [css] is present: the style buffer is overwritten, the markup and
    the script keep the default template's text. *)
Lemma decode_overwrites_only_present_parameters_example :
  let st' := exec (urlEffect (lit "?css=cHtjb2xvcjpyZWR9")) initial_state in
  htmlCode st' = htmlCode initial_state
  /\ cssCode st' = Str (lit "p{color:red}")
  /\ jsCode st' = jsCode initial_state.
Proof.
  pose proof (decode_overwrites_only_present_parameters
                (lit "?css=cHtjb2xvcjpyZWR9") initial_state) as H.
  cbv zeta in H.
  destruct H as [Hh [_ [Hj [_ [Hc _]]]]].
  - exists (lit "css"). split; [right; left; reflexivity | vm_compute; discriminate].
  - intros name v [<- | [<- | [<- | []]]] Hget; vm_compute in Hget;
      try discriminate Hget.
    injection Hget as <-. exists (lit "p{color:red}"). vm_compute. reflexivity.
  - cbv zeta. split; [apply Hh; vm_compute; reflexivity|].
    split; [rewrite Hc; vm_compute; reflexivity | apply Hj; vm_compute; reflexivity].
Defined.

(** C9: the composed document is a function of the three buffers alone:
    the effect that recomputes it stores the same document from any two
    states that agree on the three buffers, whatever else differs
    (the document stored before, the console), and running it again
    stores the same document again. *)
Theorem composed_document_depends_only_on_buffers st1 st2 :
  buffers st1 = buffers st2 ->
  srcDoc (exec srcDocEffect st1) = srcDoc (exec srcDocEffect st2)
  /\ srcDoc (exec srcDocEffect (exec srcDocEffect st1)) = srcDoc (exec srcDocEffect st1)
  /\ buffers (exec srcDocEffect st1) = buffers st1.
Proof.
  destruct st1 as [h1 c1 j1 d1 k1], st2 as [h2 c2 j2 d2 k2].
  unfold buffers. cbn [htmlCode cssCode jsCode].
  intro H. injection H as -> -> ->. repeat split.
Qed.

(** The state at mount and a state with the same buffers, a stale document
    and a console entry. *)
Lemma composed_document_depends_only_on_buffers_example :
  srcDoc (exec srcDocEffect initial_state)
  = srcDoc (exec srcDocEffect
              {| htmlCode := htmlCode initial_state; cssCode := cssCode initial_state;
                 jsCode := jsCode initial_state; srcDoc := lit "<p>stale</p>";
                 console := [ConsoleWarn (lit "x")] |}).
Proof.
  apply (composed_document_depends_only_on_buffers initial_state
           {| htmlCode := htmlCode initial_state; cssCode := cssCode initial_state;
              jsCode := jsCode initial_state; srcDoc := lit "<p>stale</p>";
              console := [ConsoleWarn (lit "x")] |}).
  reflexivity.
Defined.

(** C10: a parameter that is present with an empty value is treated
    exactly as an absent one: two query strings that differ only in that
    some of [html], [css], [js] are empty-valued in the first and absent
    in the second give the same completion and the same state; nothing is
    decoded for such a parameter and its buffer keeps its value.  In
    particular [?html=&css=&js=] leaves the state at mount untouched: the
    three buffers hold the default template, not empty strings. *)
Theorem empty_parameter_is_as_absent :
  (forall s1 s2 st,
      (forall name, In name param_names ->
                    get (URLSearchParams s1) name = get (URLSearchParams s2) name
                    \/ (get (URLSearchParams s1) name = Some []
                        /\ get (URLSearchParams s2) name = None)) ->
      urlEffect s1 st = urlEffect s2 st)
  /\ urlEffect (lit "?html=&css=&js=") initial_state = (Normal tt, initial_state)
  /\ buffers (exec (urlEffect (lit "?html=&css=&js=")) initial_state) = default_buffers.
Proof.
  split; [|split; vm_compute; reflexivity].
  intros s1 s2 st Hsame.
  pose proof (Hsame (lit "html") (or_introl eq_refl)) as Hh.
  pose proof (Hsame (lit "css") (or_intror (or_introl eq_refl))) as Hc.
  pose proof (Hsame (lit "js") (or_intror (or_intror (or_introl eq_refl)))) as Hj.
  unfold urlEffect. cbv zeta.
  destruct Hh as [-> | [-> ->]], Hc as [-> | [-> ->]], Hj as [-> | [-> ->]];
    reflexivity.
Qed.

(** [?html=&css=...] against [?css=...]. *)
Lemma empty_parameter_is_as_absent_example :
  urlEffect (lit "?html=&css=cHtjb2xvcjpyZWR9") initial_state
  = urlEffect (lit "?css=cHtjb2xvcjpyZWR9") initial_state.
Proof.
  apply (proj1 empty_parameter_is_as_absent).
  intros name [<- | [<- | [<- | []]]].
  - right. split; vm_compute; reflexivity.
  - left. vm_compute. reflexivity.
  - left. vm_compute. reflexivity.
Defined.

End Claims.

(* ================================================================= *)
(** ** The decode effect, in full *)

Section UrlEffect_spec.

Import App.

(** What the effect does for every query string and state: it completes
    normally; if a parameter fails, the buffers are the default template's
    and one error is logged; else every buffer is as its parameter says. *)
Lemma urlEffect_spec search st :
  let P := URLSearchParams search in
  let oh := outcome (get P (lit "html")) in
  let oc := outcome (get P (lit "css")) in
  let oj := outcome (get P (lit "js")) in
  urlEffect search st
  = (Normal tt,
     match first_failure oh oc oj with
     | Some e =>
         {| htmlCode := Str (html TEMPLATES_default);
            cssCode := Str (css TEMPLATES_default);
            jsCode := Str (js TEMPLATES_default);
            srcDoc := srcDoc st;
            console := console st
                       ++ [ConsoleError (lit "Failed to decode code from URL") e] |}
     | None =>
         {| htmlCode := written oh (htmlCode st);
            cssCode := written oc (cssCode st);
            jsCode := written oj (jsCode st);
            srcDoc := srcDoc st; console := console st |}
     end).
Proof.
  cbv zeta. unfold urlEffect. cbv zeta.
  set (uh := get (URLSearchParams search) (lit "html")).
  set (uc := get (URLSearchParams search) (lit "css")).
  set (uj := get (URLSearchParams search) (lit "js")).
  destruct st as [h c j d k].
  destruct (truthy uh || truthy uc || truthy uj) eqn:Hguard.
  - unfold try_catch, bind. rewrite !decode_into_outcome.
    destruct (outcome uh) as [|th|eh]; cbn;
      rewrite ?decode_into_outcome;
      destruct (outcome uc) as [|tc|ec]; cbn;
      rewrite ?decode_into_outcome;
      destruct (outcome uj) as [|tj|ej]; cbn; reflexivity.
  - apply orb_false_iff in Hguard as [Hguard Hj].
    apply orb_false_iff in Hguard as [Hh Hc].
    rewrite (outcome_truthy _ Hh), (outcome_truthy _ Hc), (outcome_truthy _ Hj).
    reflexivity.
Qed.

End UrlEffect_spec.

Section UrlEffect_more.

Import App.

Lemma list_ind4 (A : Type) (P : list A -> Prop) :
  P [] -> (forall a, P [a]) -> (forall a b, P [a; b]) -> (forall a b c, P [a; b; c]) ->
  (forall a b c d rest, P rest -> P (a :: b :: c :: d :: rest)) ->
  forall l, P l.
Proof.
  intros H0 H1 H2 H3 H4 l.
  assert (G : P l /\ (forall a, P (a :: l)) /\ (forall a b, P (a :: b :: l))
              /\ (forall a b c, P (a :: b :: c :: l))).
  { induction l as [|x l [IH0 [IH1 [IH2 IH3]]]]; repeat split; auto. }
  apply G.
Qed.

Lemma index_of_bound c i : Base64.index_of c = Some i -> i < 64.
Proof.
  unfold Base64.index_of, is_upper, is_lower, is_digit, in_range.
  cmp; intro Hcase; inversion Hcase; lia.
Qed.

Lemma indices_bound data groups :
  Base64.indices data = Some groups -> Forall (fun i => i < 64) groups.
Proof.
  revert groups. induction data as [|c data IH]; intros groups H; cbn in H.
  - injection H as <-. constructor.
  - destruct (Base64.index_of c) as [i|] eqn:Hi; [|discriminate H].
    destruct (Base64.indices data) as [l|]; [|discriminate H].
    injection H as <-. constructor; [now apply (index_of_bound c) | now apply IH].
Qed.

Lemma decode_groups_bytes groups :
  Forall (fun i => i < 64) groups -> Latin1 (Base64.decode_groups groups).
Proof.
  induction groups as [| a | a b | a b c | a b c d rest IH] using list_ind4;
    intro HF; cbn [Base64.decode_groups].
  - constructor.
  - constructor.
  - inversion HF as [|? ? Ha HF1]; subst. inversion HF1 as [|? ? Hb _]; subst.
    constructor; [lia | constructor].
  - inversion HF as [|? ? Ha HF1]; subst. inversion HF1 as [|? ? Hb HF2]; subst.
    inversion HF2 as [|? ? Hc _]; subst.
    repeat (constructor; [lia|]). constructor.
  - inversion HF as [|? ? Ha HF1]; subst. inversion HF1 as [|? ? Hb HF2]; subst.
    inversion HF2 as [|? ? Hc HF3]; subst. inversion HF3 as [|? ? Hd HF4]; subst.
    cbn [app]. repeat (constructor; [lia|]). now apply IH.
Qed.

(** [atob] returns single-byte text only. *)
Lemma atob_Latin1 s text : atob s = Normal text -> Latin1 text.
Proof.
  unfold atob, Base64.decode. intro H.
  destruct (Nat.eqb _ 1); [discriminate H|].
  destruct (Base64.indices _) as [groups|] eqn:Hi; [|discriminate H].
  cbn [option_map] in H. injection H as <-.
  apply decode_groups_bytes. eapply indices_bound, Hi.
Qed.

Lemma decode_param_Latin1 v text : decode_param v = Normal text -> Latin1 text.
Proof.
  unfold decode_param. destruct (decodeURIComponent v) as [s|e]; cbn [cbind].
  - apply atob_Latin1.
  - discriminate.
Qed.

Lemma outcome_decoded p text :
  outcome p = Decoded text -> exists v, p = Some v /\ decode_param v = Normal text.
Proof.
  destruct p as [[|c rest]|]; try discriminate.
  unfold outcome. destruct (decode_param (c :: rest)) as [t|e] eqn:Hd; [|discriminate].
  intro H. injection H as <-. eauto.
Qed.

Lemma written_Latin1 o old :
  (forall text, o = Decoded text -> Latin1 text) ->
  written o old = old \/ exists text, written o old = Str text /\ Latin1 text.
Proof.
  intro H. destruct o as [|text|e]; cbn [written]; auto.
  right. exists text. split; [reflexivity | now apply H].
Qed.

Lemma default_template_Latin1 :
  Latin1 (html TEMPLATES_default) /\ Latin1 (css TEMPLATES_default)
  /\ Latin1 (js TEMPLATES_default).
Proof. repeat split; apply latin1b_spec; vm_compute; reflexivity. Qed.

(** X1: the decode effect never throws, whatever the query string: every
    call that can throw is inside its [try] block and the [catch] block
    cannot throw.  It leaves the preview document alone, and it writes to
    the console only when a parameter fails to decode: then one error entry,
    with the exception of the first failing parameter in the order html,
    css, js. *)
Theorem urlEffect_completes_and_logs search st :
  let P := URLSearchParams search in
  fst (urlEffect search st) = Normal tt
  /\ srcDoc (exec (urlEffect search) st) = srcDoc st
  /\ console (exec (urlEffect search) st)
     = console st
       ++ match first_failure (outcome (get P (lit "html"))) (outcome (get P (lit "css")))
                  (outcome (get P (lit "js"))) with
          | Some e => [ConsoleError (lit "Failed to decode code from URL") e]
          | None => []
          end.
Proof.
  cbv zeta. unfold exec. rewrite urlEffect_spec. cbv zeta.
  destruct (first_failure _ _ _); cbn [fst snd srcDoc console];
    rewrite ?app_nil_r; repeat split.
Qed.

(** X2: a share link can only put single-byte text into a buffer: after the
    decode effect every buffer is what it was before, or a string whose
    code units are all at most U+00FF, whatever the query string holds. *)
Theorem urlEffect_writes_single_byte_text search st :
  let st' := exec (urlEffect search) st in
  (htmlCode st' = htmlCode st \/ exists text, htmlCode st' = Str text /\ Latin1 text)
  /\ (cssCode st' = cssCode st \/ exists text, cssCode st' = Str text /\ Latin1 text)
  /\ (jsCode st' = jsCode st \/ exists text, jsCode st' = Str text /\ Latin1 text).
Proof.
  cbv zeta. unfold exec. rewrite urlEffect_spec. cbv zeta.
  destruct default_template_Latin1 as [Dh [Dc Dj]].
  destruct (first_failure _ _ _); cbn [snd htmlCode cssCode jsCode].
  - repeat split; right; eexists; split; try reflexivity; assumption.
  - repeat split; apply written_Latin1; intros text Ho;
      apply outcome_decoded in Ho as [v [_ Hd]]; eapply decode_param_Latin1, Hd.
Qed.

(** X3: running the decode effect a second time changes no buffer: the
    buffers after two runs are those after one. *)
Theorem urlEffect_twice search st :
  buffers (exec (urlEffect search) (exec (urlEffect search) st))
  = buffers (exec (urlEffect search) st).
Proof.
  unfold exec. rewrite !urlEffect_spec. cbv zeta.
  destruct (first_failure _ _ _); cbn [snd buffers htmlCode cssCode jsCode];
    [reflexivity|].
  destruct (outcome (get _ (lit "html"))), (outcome (get _ (lit "css"))),
    (outcome (get _ (lit "js"))); reflexivity.
Qed.

End UrlEffect_more.

(* ================================================================= *)
(** ** Renders and events *)

Section Render_facts.

Import App.
Import Ui.

Lemma jsstring_eqb_eq a b : jsstring_eqb a b = true -> a = b.
Proof.
  revert b. induction a as [|x a IH]; intros [|y b] H; cbn in H;
    try discriminate H; [reflexivity|].
  apply andb_true_iff in H as [Hxy Hab].
  apply N.eqb_eq in Hxy. subst. f_equal. now apply IH.
Qed.

Lemma value_eqb_eq a b : value_eqb a b = true -> a = b.
Proof.
  destruct a, b; cbn; intro H; try discriminate H; [reflexivity|].
  f_equal. now apply jsstring_eqb_eq.
Qed.

(** The render after updates that left the document alone: the buffers
    and the console are those of the updates, and the document is the one
    composed from these buffers. *)
Lemma commit_sync prev st :
  srcDoc st = fullSrcDoc (htmlCode prev) (cssCode prev) (jsCode prev) ->
  in_sync (commit prev st)
  /\ buffers (commit prev st) = buffers st
  /\ console (commit prev st) = console st.
Proof.
  intro Hdoc. unfold commit, deps_changed.
  destruct (value_eqb (htmlCode prev) (htmlCode st)) eqn:Eh;
    [destruct (value_eqb (cssCode prev) (cssCode st)) eqn:Ec;
     [destruct (value_eqb (jsCode prev) (jsCode st)) eqn:Ej|]|];
    cbn [andb negb]; try (repeat split; reflexivity).
  apply value_eqb_eq in Eh, Ec, Ej.
  repeat split. unfold in_sync. now rewrite Hdoc, Eh, Ec, Ej.
Qed.

Lemma loadTemplate_srcDoc confirm name st :
  fst (loadTemplate confirm name st) = Normal tt
  /\ srcDoc (exec (loadTemplate confirm name) st) = srcDoc st.
Proof.
  unfold exec, loadTemplate. destruct name as [|x name]; [split; reflexivity|].
  destruct (property_truthy _); [destruct (confirm _)|]; split; reflexivity.
Qed.

Lemma handle_srcDoc ev st : srcDoc (exec (handle ev) st) = srcDoc st.
Proof.
  destruct ev; try reflexivity. apply loadTemplate_srcDoc.
Qed.

Lemma mount_sync search :
  in_sync (mount search)
  /\ buffers (mount search) = buffers (exec (urlEffect search) initial_state)
  /\ console (mount search) = console (exec (urlEffect search) initial_state).
Proof.
  unfold mount. cbv zeta.
  set (st1 := exec srcDocEffect initial_state).
  destruct (commit_sync initial_state (exec (urlEffect search) st1)) as [Hs [Hb Hc]].
  { unfold exec. rewrite urlEffect_spec. cbv zeta.
    destruct (first_failure _ _ _); reflexivity. }
  split; [exact Hs|]. rewrite Hb, Hc.
  unfold exec. rewrite !urlEffect_spec. cbv zeta.
  destruct (first_failure _ _ _); split; reflexivity.
Qed.

Lemma step_sync st ev :
  in_sync st ->
  in_sync (step st ev)
  /\ buffers (step st ev) = buffers (exec (handle ev) st)
  /\ console (step st ev) = console (exec (handle ev) st).
Proof.
  intro Hs. unfold step. apply commit_sync.
  rewrite handle_srcDoc. exact Hs.
Qed.

(** The template select only delivers the empty value and the keys of the
    registry: on these, [loadTemplate] does nothing, or, on a key and a
    positive answer, replaces the three buffers by that template's texts. *)
Lemma loadTemplate_select name answer st :
  In name select_values ->
  loadTemplate (fun _ => answer) name st = (Normal tt, st)
  \/ exists t,
      In (name, t) TEMPLATES /\ answer = true
      /\ loadTemplate (fun _ => answer) name st
         = (Normal tt,
            {| htmlCode := Str (html t); cssCode := Str (css t); jsCode := Str (js t);
               srcDoc := srcDoc st; console := console st |}).
Proof.
  assert (Hentry : forall t, own_property TEMPLATES name = Some t ->
                              In (name, t) TEMPLATES ->
                              loadTemplate (fun _ => answer) name st = (Normal tt, st)
                              \/ exists t0,
                                  In (name, t0) TEMPLATES /\ answer = true
                                  /\ loadTemplate (fun _ => answer) name st
                                     = (Normal tt,
                                        {| htmlCode := Str (html t0); cssCode := Str (css t0);
                                           jsCode := Str (js t0);
                                           srcDoc := srcDoc st; console := console st |})).
  { intros t Hown Hin. rewrite (loadTemplate_entry _ _ t) by assumption.
    destruct answer; [right; exists t; auto | left; reflexivity]. }
  intros [<- | [<- | [<- | [<- | []]]]].
  - left. reflexivity.
  - apply (Hentry {| html := default_html; css := default_css; js := default_js |});
      [reflexivity | left; reflexivity].
  - apply (Hentry {| html := simpleCard_html; css := simpleCard_css;
                     js := simpleCard_js |});
      [reflexivity | right; left; reflexivity].
  - apply (Hentry {| html := flexboxExample_html; css := flexboxExample_css;
                     js := flexboxExample_js |});
      [reflexivity | right; right; left; reflexivity].
Qed.

End Render_facts.

Section Run_facts.

Import App.
Import Ui.

Lemma run_snoc search events ev :
  run search (events ++ [ev]) = step (run search events) ev.
Proof. unfold run. now rewrite fold_left_app. Qed.

Lemma run_in_sync search events : in_sync (run search events).
Proof.
  induction events as [|ev events IH] using rev_ind.
  - apply mount_sync.
  - rewrite run_snoc. now apply step_sync.
Qed.

Lemma handle_ui_event ev st :
  ui_event ev -> text_buffers st ->
  text_buffers (exec (handle ev) st)
  /\ console (exec (handle ev) st) = console st.
Proof.
  intros Hev [Hh [Hc Hj]]. destruct ev as [v | v | v | name answer]; cbn in Hev.
  - repeat split; assumption.
  - repeat split; assumption.
  - repeat split; assumption.
  - cbn [handle]. unfold exec.
    destruct (loadTemplate_select name answer st Hev) as [-> | [t [_ [_ ->]]]].
    + repeat split; assumption.
    + repeat split.
Qed.

Lemma mount_text_buffers search : text_buffers (mount search).
Proof.
  destruct (mount_sync search) as [_ [Hb _]].
  unfold buffers in Hb. injection Hb as Hh Hc Hj.
  unfold text_buffers. rewrite Hh, Hc, Hj.
  unfold exec. rewrite urlEffect_spec. cbv zeta.
  destruct (first_failure _ _ _); cbn [snd htmlCode cssCode jsCode initial_state].
  - repeat split.
  - destruct (outcome (get _ (lit "html"))), (outcome (get _ (lit "css"))),
      (outcome (get _ (lit "js"))); repeat split.
Qed.

Lemma run_ui search events :
  Forall ui_event events ->
  text_buffers (run search events)
  /\ console (run search events) = console (mount search).
Proof.
  induction events as [|ev events IH] using rev_ind; intro HF.
  - split; [apply mount_text_buffers | reflexivity].
  - apply Forall_app in HF as [HF Hev]. inversion Hev as [|? ? Hev' _]; subst.
    destruct (IH HF) as [Ht Hc]. rewrite run_snoc.
    destruct (step_sync (run search events) ev (run_in_sync _ _)) as [_ [Hb Hk]].
    destruct (handle_ui_event ev _ Hev' Ht) as [Ht' Hk'].
    split.
    + unfold buffers in Hb. injection Hb as Hbh Hbc Hbj.
      unfold text_buffers. rewrite Hbh, Hbc, Hbj. exact Ht'.
    + now rewrite Hk, Hk'.
Qed.

(** X4: the preview never lags behind the buffers: after mounting on any
    query string and after any sequence of edits and template selections
    (whatever the editors report, whatever name is selected and whatever
    the user answers), the document handed to the iframe is the one
    composed from the current three buffers. *)
Theorem preview_always_in_sync search events :
  let st := run search events in
  srcDoc st = fullSrcDoc (htmlCode st) (cssCode st) (jsCode st).
Proof. apply run_in_sync. Qed.

(** X5: as long as the editors report strings and template names come from
    the template select, no buffer ever holds undefined: after mounting on
    any query string and any such sequence of events each of the three
    buffers is a string. *)
Theorem buffers_stay_text search events :
  Forall ui_event events ->
  let st := run search events in
  exists h c j, buffers st = (Str h, Str c, Str j).
Proof.
  intro HF. cbv zeta. destruct (run_ui search events HF) as [[Hh [Hc Hj]] _].
  unfold buffers.
  destruct (htmlCode _) as [|h]; [destruct Hh|].
  destruct (cssCode _) as [|c]; [destruct Hc|].
  destruct (jsCode _) as [|j]; [destruct Hj|].
  exists h, c, j. reflexivity.
Qed.

Lemma buffers_stay_text_example :
  exists h c j,
    buffers (run (lit "?css=%25")
               [EditJs (Str (lit "let x = 1;")); SelectTemplate (lit "simpleCard") true;
                EditHtml (Str [])])
    = (Str h, Str c, Str j).
Proof.
  apply (buffers_stay_text (lit "?css=%25")
           [EditJs (Str (lit "let x = 1;")); SelectTemplate (lit "simpleCard") true;
            EditHtml (Str [])]).
  apply Forall_forall. intros ev Hin. cbn [In] in Hin.
  repeat (destruct Hin as [<- | Hin]; [vm_compute; auto 10|]). destruct Hin.
Defined.

(** X6: the only thing the component ever writes to the console when the
    editors report strings and template names come from the template select
    is the decode error of the mount: the console after any such sequence
    of events is the console after mounting, which is empty or holds that
    one error.  In particular "Template not found" is never logged. *)
Theorem console_only_decode_error search events :
  Forall ui_event events ->
  console (run search events) = console (mount search)
  /\ (console (mount search) = []
      \/ exists e, console (mount search)
                   = [ConsoleError (lit "Failed to decode code from URL") e]).
Proof.
  intro HF. split; [apply run_ui, HF|].
  destruct (mount_sync search) as [_ [_ ->]].
  unfold exec. rewrite urlEffect_spec. cbv zeta.
  destruct (first_failure _ _ _) as [e|]; cbn [snd console initial_state app]; eauto.
Qed.

Lemma console_only_decode_error_example :
  console (run (lit "?css=%25")
             [SelectTemplate (lit "flexboxExample") false; EditCss (Str (lit "p{}"))])
  = console (mount (lit "?css=%25"))
  /\ (console (mount (lit "?css=%25")) = []
      \/ exists e, console (mount (lit "?css=%25"))
                   = [ConsoleError (lit "Failed to decode code from URL") e]).
Proof.
  apply (console_only_decode_error (lit "?css=%25")
           [SelectTemplate (lit "flexboxExample") false; EditCss (Str (lit "p{}"))]).
  apply Forall_forall. intros ev Hin. cbn [In] in Hin.
  repeat (destruct Hin as [<- | Hin]; [vm_compute; auto 10|]). destruct Hin.
Defined.

(** X7: on every value the template select can deliver (the empty value and
    the keys of the registry) [loadTemplate] finds its template: it never
    takes the not-found branch and never writes undefined.  Either the
    state is unchanged, or the answer was yes and the three buffers are
    exactly the texts of the selected registry entry, the document and the
    console being untouched. *)
Theorem select_always_finds_template name answer st :
  In name select_values ->
  loadTemplate (fun _ => answer) name st = (Normal tt, st)
  \/ exists t,
      In (name, t) TEMPLATES /\ answer = true
      /\ loadTemplate (fun _ => answer) name st
         = (Normal tt,
            {| htmlCode := Str (html t); cssCode := Str (css t); jsCode := Str (js t);
               srcDoc := srcDoc st; console := console st |}).
Proof. apply loadTemplate_select. Qed.

Lemma select_always_finds_template_example :
  loadTemplate (fun _ => true) (lit "flexboxExample") initial_state
  = (Normal tt, initial_state)
  \/ exists t,
      In (lit "flexboxExample", t) TEMPLATES /\ true = true
      /\ loadTemplate (fun _ => true) (lit "flexboxExample") initial_state
         = (Normal tt,
            {| htmlCode := Str (html t); cssCode := Str (css t); jsCode := Str (js t);
               srcDoc := srcDoc initial_state; console := console initial_state |}).
Proof.
  apply (select_always_finds_template (lit "flexboxExample") true initial_state).
  cbn. auto.
Defined.

End Run_facts.

(* ================================================================= *)
(** ** More on share links *)

Section Link_facts.

Import App.
Import Ui.

Lemma generateShareUrl_Normal origin st url :
  generateShareUrl origin st = Normal url ->
  Latin1 (ToString (htmlCode st)) /\ Latin1 (ToString (cssCode st))
  /\ Latin1 (ToString (jsCode st)).
Proof.
  intro H.
  destruct (latin1b (ToString (htmlCode st))) eqn:Eh;
    [destruct (latin1b (ToString (cssCode st))) eqn:Ec;
     [destruct (latin1b (ToString (jsCode st))) eqn:Ej|]|];
    try (rewrite generateShareUrl_not_Latin1 in H; [discriminate H|];
         intros [Hh [Hc Hj]]; apply latin1b_spec in Hh, Hc, Hj; congruence).
  apply latin1b_spec in Eh, Ec, Ej. auto.
Qed.

Lemma app_separator_inj (sep : N) (x y x' y' : list N) :
  Forall (fun c => c <> sep) x -> Forall (fun c => c <> sep) x' ->
  x ++ sep :: y = x' ++ sep :: y' -> x = x' /\ y = y'.
Proof.
  intros Hx Hx' H.
  pose proof (split_first_app sep x y Hx) as H1.
  pose proof (split_first_app sep x' y' Hx') as H2.
  rewrite H in H1. rewrite H1 in H2. injection H2 as -> ->. auto.
Qed.

Lemma param_value_inj text text' :
  Latin1 text -> Latin1 text' -> param_value text = param_value text' -> text = text'.
Proof.
  intros HL HL' H.
  pose proof (decode_param_value text HL) as H1.
  pose proof (decode_param_value text' HL') as H2.
  rewrite H in H1. rewrite H1 in H2. now injection H2.
Qed.

Lemma param_value_no_ampersand text :
  Latin1 text -> Forall (fun c => c <> 38) (param_value text).
Proof.
  intro HL. eapply Forall_impl; [|apply param_chars_value, HL].
  intros c Hc. apply param_char_bounds in Hc. tauto.
Qed.

(** X8: a share URL identifies the content: if [generateShareUrl] returns
    the same URL for two states (on the same origin), the texts of their
    three buffers are the same. *)
Theorem share_url_identifies_content origin st1 st2 url :
  generateShareUrl origin st1 = Normal url ->
  generateShareUrl origin st2 = Normal url ->
  ToString (htmlCode st1) = ToString (htmlCode st2)
  /\ ToString (cssCode st1) = ToString (cssCode st2)
  /\ ToString (jsCode st1) = ToString (jsCode st2).
Proof.
  intros H1 H2.
  destruct (generateShareUrl_Normal _ _ _ H1) as [Lh1 [Lc1 Lj1]].
  destruct (generateShareUrl_Normal _ _ _ H2) as [Lh2 [Lc2 Lj2]].
  rewrite generateShareUrl_Latin1 in H1, H2 by assumption.
  rewrite <- H2 in H1. injection H1 as H.
  apply app_inv_head in H. repeat (injection H as H).
  apply app_separator_inj in H as [Hh H]; try now apply param_value_no_ampersand.
  repeat (injection H as H).
  apply app_separator_inj in H as [Hc H]; try now apply param_value_no_ampersand.
  repeat (injection H as H).
  repeat split; apply param_value_inj; auto.
Qed.

Lemma share_url_identifies_content_example :
  ToString (htmlCode initial_state)
  = ToString (htmlCode {| htmlCode := htmlCode initial_state;
                          cssCode := cssCode initial_state;
                          jsCode := jsCode initial_state;
                          srcDoc := lit "stale"; console := [] |}).
Proof.
  eapply (share_url_identifies_content (lit "https://example.com") initial_state
            {| htmlCode := htmlCode initial_state; cssCode := cssCode initial_state;
               jsCode := jsCode initial_state; srcDoc := lit "stale"; console := [] |});
    vm_compute; reflexivity.
Defined.

Lemma encode_length text :
  length (Base64.encode text) = (4 * groups_of_three text)%nat.
Proof.
  unfold groups_of_three.
  induction text as [| a | a b | a b c rest IH] using list_ind3; try reflexivity.
  cbn [Base64.encode app length]. rewrite IH.
  assert (Hdiv : forall n, (Nat.div (S (S (S n)) + 2) 3 = S (Nat.div (n + 2) 3))%nat).
  { intro n. replace (S (S (S n)) + 2)%nat with (n + 2 + 1 * 3)%nat by lia.
    rewrite Nat.div_add by discriminate. lia. }
  rewrite Hdiv. lia.
Qed.

Lemma uri_escape_length c :
  (1 <= length (uri_escape c) <= 3)%nat.
Proof.
  unfold uri_escape, percent_escape. destruct (URI.unescaped c); cbn [length]; lia.
Qed.

Lemma param_value_length text :
  (4 * groups_of_three text <= length (param_value text) <= 12 * groups_of_three text)%nat.
Proof.
  assert (H : forall l, (length l <= length (flat_map uri_escape l) <= 3 * length l)%nat).
  { induction l as [|c l IH]; cbn [flat_map length]; [lia|].
    rewrite length_app. pose proof (uri_escape_length c). lia. }
  specialize (H (Base64.encode text)). rewrite encode_length in H.
  unfold param_value. lia.
Qed.

(** X9: the length of a share URL is bounded by the sizes of the buffers.
    With n(t) the number of groups of three bytes of a text t, rounded up,
    the URL is the origin, 16 characters of parameter names and
    separators, and between 4 and 12 characters for every group of every
    buffer. *)
Theorem share_url_length origin st url :
  generateShareUrl origin st = Normal url ->
  let n := (groups_of_three (ToString (htmlCode st))
            + groups_of_three (ToString (cssCode st))
            + groups_of_three (ToString (jsCode st)))%nat in
  (length origin + 16 + 4 * n <= length url <= length origin + 16 + 12 * n)%nat.
Proof.
  intro H. cbv zeta.
  destruct (generateShareUrl_Normal _ _ _ H) as [Lh [Lc Lj]].
  rewrite generateShareUrl_Latin1 in H by assumption. injection H as <-.
  repeat (progress (rewrite ?length_app; cbn [length])).
  pose proof (param_value_length (ToString (htmlCode st))).
  pose proof (param_value_length (ToString (cssCode st))).
  pose proof (param_value_length (ToString (jsCode st))).
  lia.
Qed.

Lemma share_url_length_example :
  exists url,
    generateShareUrl (lit "https://example.com") initial_state = Normal url
    /\ (length (lit "https://example.com") + 16 + 4 * (68 + 133 + 85) <= length url
        <= length (lit "https://example.com") + 16 + 12 * (68 + 133 + 85))%nat.
Proof.
  eexists. split; [vm_compute; reflexivity|].
  eapply (share_url_length (lit "https://example.com") initial_state).
  vm_compute. reflexivity.
Defined.

(** Opening the share link of a state: the mounted component has, for every
    buffer of the sharer that is not empty, that buffer's text, the document
    composed from its buffers, and an empty console. *)
Lemma mount_share_link origin st :
  Forall (fun x => origin_char x = true) origin ->
  Latin1 (ToString (htmlCode st)) ->
  Latin1 (ToString (cssCode st)) ->
  Latin1 (ToString (jsCode st)) ->
  exists url,
    generateShareUrl origin st = Normal url
    /\ buffers (mount (Url.search url))
       = (restored (ToString (htmlCode st)) (html TEMPLATES_default),
          restored (ToString (cssCode st)) (css TEMPLATES_default),
          restored (ToString (jsCode st)) (js TEMPLATES_default))
    /\ in_sync (mount (Url.search url))
    /\ console (mount (Url.search url)) = [].
Proof.
  intros Ho Hh Hc Hj. eexists. split; [now apply generateShareUrl_Latin1|].
  rewrite search_share_url by (try apply param_chars_value; assumption).
  destruct (mount_sync (63 :: share_query (param_value (ToString (htmlCode st)))
                                (param_value (ToString (cssCode st)))
                                (param_value (ToString (jsCode st)))))
    as [Hs [Hb Hk]].
  split; [|split; [exact Hs|]].
  - rewrite Hb. unfold exec. rewrite urlEffect_share_query by assumption.
    destruct (ToString (htmlCode st)), (ToString (cssCode st)), (ToString (jsCode st));
      reflexivity.
  - rewrite Hk. unfold exec. rewrite urlEffect_share_query by assumption. reflexivity.
Qed.

(** X10: opening a share link shows what the sharer saw.  If the three
    buffers of the sharer are non-empty strings in the single-byte range
    and the sharer's preview is the document of these buffers, then the
    component mounted on the search of the URL that [generateShareUrl]
    returned has the same three buffers and the same preview document, and
    has logged nothing. *)
Theorem share_link_reproduces_preview origin st h c j :
  Forall (fun x => origin_char x = true) origin ->
  buffers st = (Str h, Str c, Str j) ->
  Latin1 h -> Latin1 c -> Latin1 j ->
  h <> [] -> c <> [] -> j <> [] ->
  in_sync st ->
  exists url,
    generateShareUrl origin st = Normal url
    /\ buffers (mount (Url.search url)) = buffers st
    /\ srcDoc (mount (Url.search url)) = srcDoc st
    /\ console (mount (Url.search url)) = [].
Proof.
  intros Ho Hst Hh Hc Hj Nh Nc Nj Hsync.
  destruct st as [sh sc sj sd sk]. injection Hst as -> -> ->.
  destruct (mount_share_link origin
              {| htmlCode := Str h; cssCode := Str c; jsCode := Str j;
                 srcDoc := sd; console := sk |} Ho Hh Hc Hj)
    as [url [Hurl [Hb [Hs Hk]]]].
  exists url. cbn [htmlCode cssCode jsCode ToString] in Hb.
  destruct h as [|h0 h']; [congruence|].
  destruct c as [|c0 c']; [congruence|].
  destruct j as [|j0 j']; [congruence|].
  cbn [restored] in Hb.
  repeat split; try assumption.
  unfold in_sync in Hs, Hsync. cbn [srcDoc htmlCode cssCode jsCode] in Hsync.
  unfold buffers in Hb. injection Hb as Eh Ec Ej.
  rewrite Hs, Eh, Ec, Ej. now rewrite Hsync.
Qed.

Lemma share_link_reproduces_preview_example :
  exists url,
    generateShareUrl (lit "https://example.com") (run [] [EditHtml (Str (lit "<p>hi</p>"))])
    = Normal url
    /\ buffers (mount (Url.search url)) = buffers (run [] [EditHtml (Str (lit "<p>hi</p>"))])
    /\ srcDoc (mount (Url.search url)) = srcDoc (run [] [EditHtml (Str (lit "<p>hi</p>"))])
    /\ console (mount (Url.search url)) = [].
Proof.
  apply (share_link_reproduces_preview (lit "https://example.com")
           (run [] [EditHtml (Str (lit "<p>hi</p>"))])
           (lit "<p>hi</p>") (css TEMPLATES_default) (js TEMPLATES_default)).
  - apply Forall_forall, forallb_forall. vm_compute. reflexivity.
  - vm_compute. reflexivity.
  - apply latin1b_spec. vm_compute. reflexivity.
  - apply latin1b_spec. vm_compute. reflexivity.
  - apply latin1b_spec. vm_compute. reflexivity.
  - discriminate.
  - discriminate.
  - discriminate.
  - vm_compute. reflexivity.
Defined.

(** X11: undefined is shared as the nine-letter text "undefined".  When the
    text of each of the three buffers is in the single-byte range (the text
    of a buffer that holds undefined being "undefined"), [generateShareUrl]
    returns a URL without an error, and on the page that opens it every
    buffer that held undefined, whichever of the three, holds the string
    "undefined", not undefined. *)
Theorem undefined_is_shared_as_text origin st :
  Forall (fun x => origin_char x = true) origin ->
  Latin1 (ToString (htmlCode st)) ->
  Latin1 (ToString (cssCode st)) ->
  Latin1 (ToString (jsCode st)) ->
  exists url,
    generateShareUrl origin st = Normal url
    /\ (htmlCode st = Undefined ->
        htmlCode (mount (Url.search url)) = Str (lit "undefined"))
    /\ (cssCode st = Undefined ->
        cssCode (mount (Url.search url)) = Str (lit "undefined"))
    /\ (jsCode st = Undefined ->
        jsCode (mount (Url.search url)) = Str (lit "undefined")).
Proof.
  intros Ho Hh Hc Hj.
  destruct (mount_share_link origin st Ho Hh Hc Hj) as [url [Hurl [Hb _]]].
  exists url. split; [assumption|].
  unfold buffers in Hb. injection Hb as Eh Ec Ej.
  repeat split; intro Hu.
  - rewrite Eh, Hu. reflexivity.
  - rewrite Ec, Hu. reflexivity.
  - rewrite Ej, Hu. reflexivity.
Qed.

Lemma undefined_is_shared_as_text_example :
  exists url,
    generateShareUrl (lit "https://example.com")
      (run [] [EditHtml Undefined; EditJs Undefined]) = Normal url
    /\ htmlCode (mount (Url.search url)) = Str (lit "undefined")
    /\ jsCode (mount (Url.search url)) = Str (lit "undefined").
Proof.
  destruct (undefined_is_shared_as_text (lit "https://example.com")
              (run [] [EditHtml Undefined; EditJs Undefined]))
    as [url [Hurl [Hh [_ Hj]]]].
  - apply Forall_forall, forallb_forall. vm_compute. reflexivity.
  - apply latin1b_spec. vm_compute. reflexivity.
  - apply latin1b_spec. vm_compute. reflexivity.
  - apply latin1b_spec. vm_compute. reflexivity.
  - exists url. split; [exact Hurl|].
    split; [apply Hh | apply Hj]; vm_compute; reflexivity.
Defined.

Lemma registry_key name :
  In name (Object_keys TEMPLATES) ->
  exists t, own_property TEMPLATES name = Some t /\ In (name, t) TEMPLATES.
Proof.
  intros [<- | [<- | [<- | []]]]; eexists; (split; [reflexivity|]); cbn; auto.
Qed.

Lemma registry_texts name t :
  In (name, t) TEMPLATES ->
  (Latin1 (html t) /\ Latin1 (css t) /\ Latin1 (js t))
  /\ html t <> [] /\ css t <> [] /\ js t <> [].
Proof.
  intros [H | [H | [H | []]]]; injection H as <- <-;
    (split; [repeat split; apply latin1b_spec; vm_compute; reflexivity
            | repeat split; discriminate]).
Qed.

(** X12: every template of the registry can be shared: after a template
    was picked in the select and the prompt accepted, [generateShareUrl]
    returns a URL, and the page that opens it has exactly the three texts
    of that template in its buffers and their document as preview. *)
Theorem loaded_template_is_shareable origin name st :
  Forall (fun x => origin_char x = true) origin ->
  In name (Object_keys TEMPLATES) ->
  let st1 := step st (SelectTemplate name true) in
  exists url t,
    In (name, t) TEMPLATES
    /\ generateShareUrl origin st1 = Normal url
    /\ buffers (mount (Url.search url)) = (Str (html t), Str (css t), Str (js t))
    /\ srcDoc (mount (Url.search url))
       = fullSrcDoc (Str (html t)) (Str (css t)) (Str (js t)).
Proof.
  intros Ho Hin. cbv zeta.
  assert (Hb : exists t, In (name, t) TEMPLATES
                         /\ buffers (step st (SelectTemplate name true))
                            = (Str (html t), Str (css t), Str (js t))).
  { destruct (registry_key name Hin) as [t [Hown Ht]].
    exists t. split; [assumption|].
    unfold step, commit. cbn [handle]. unfold exec.
    rewrite (loadTemplate_entry _ _ t) by assumption. cbn [snd].
    destruct (deps_changed _ _); reflexivity. }
  destruct Hb as [t [Ht Hb]].
  destruct (registry_texts name t Ht) as [[Lh [Lc Lj]] [Nh [Nc Nj]]].
  unfold buffers in Hb. injection Hb as Eh Ec Ej.
  destruct (mount_share_link origin (step st (SelectTemplate name true)) Ho)
    as [url [Hurl [Hbuf [Hs _]]]]; rewrite ?Eh, ?Ec, ?Ej; try assumption.
  exists url, t. split; [assumption|]. split; [assumption|].
  rewrite Eh, Ec, Ej in Hbuf. cbn [ToString] in Hbuf.
  destruct (html t) as [|? ?]; [congruence|].
  destruct (css t) as [|? ?]; [congruence|].
  destruct (js t) as [|? ?]; [congruence|].
  cbn [restored] in Hbuf. split; [exact Hbuf|].
  unfold in_sync in Hs. unfold buffers in Hbuf. injection Hbuf as E1 E2 E3.
  now rewrite Hs, E1, E2, E3.
Qed.

Lemma loaded_template_is_shareable_example :
  exists url t,
    In (lit "simpleCard", t) TEMPLATES
    /\ generateShareUrl (lit "https://example.com")
         (step initial_state (SelectTemplate (lit "simpleCard") true)) = Normal url
    /\ buffers (mount (Url.search url)) = (Str (html t), Str (css t), Str (js t))
    /\ srcDoc (mount (Url.search url))
       = fullSrcDoc (Str (html t)) (Str (css t)) (Str (js t)).
Proof.
  apply (loaded_template_is_shareable (lit "https://example.com") (lit "simpleCard")
           initial_state).
  - apply Forall_forall, forallb_forall. vm_compute. reflexivity.
  - right. left. reflexivity.
Defined.

End Link_facts.

(* ================================================================= *)
(** ** The share button, the labels of the select, the composer *)

Section Page_facts.

Import App.
Import Ui.

(** X13: when the buffers can be encoded, a click on the share button
    always tells the user the URL: the handler completes normally and shows
    exactly one alert, whose message ends with a line feed and the URL that
    [generateShareUrl] returned, whatever the browser allows; the URL is
    written into the hidden input exactly when its ref is set. *)
Theorem share_click_informs_user origin env st url :
  generateShareUrl origin st = Normal url ->
  fst (shareClick origin env st) = Normal tt
  /\ (exists notice, alerts (snd (shareClick origin env st)) = [notice ++ [10] ++ url])
  /\ (In (SetInputValue url) (snd (shareClick origin env st)) <-> ref_ready env = true).
Proof.
  intro H. unfold shareClick. rewrite H.
  destruct (ref_ready env); [destruct (clipboard_api env)|]; cbn [fst snd alerts In].
  - split; [reflexivity|]. split; [|split; auto].
    destruct (writeText_fulfilled env); eexists; reflexivity.
  - split; [reflexivity|]. split; [|split; auto]. eexists; reflexivity.
  - split; [reflexivity|]. split; [eexists; reflexivity|].
    split; [|discriminate]. intros [Hf | []]. discriminate Hf.
Qed.

Lemma share_click_informs_user_example :
  let env := {| ref_ready := true; clipboard_api := true; writeText_fulfilled := false |} in
  let st := {| htmlCode := Str (lit "<h1>x</h1>"); cssCode := Str []; jsCode := Str [];
               srcDoc := []; console := [] |} in
  let url := lit "https://example.com/?html=PGgxPng8L2gxPg%3D%3D&css=&js=" in
  fst (shareClick (lit "https://example.com") env st) = Normal tt
  /\ (exists notice,
        alerts (snd (shareClick (lit "https://example.com") env st))
        = [notice ++ [10] ++ url])
  /\ (In (SetInputValue url) (snd (shareClick (lit "https://example.com") env st))
      <-> ref_ready env = true).
Proof.
  cbv zeta. apply share_click_informs_user. vm_compute. reflexivity.
Defined.

(** X14: when a buffer holds a character outside the single-byte range, a
    click on the share button does nothing the user can see: the handler
    throws InvalidCharacterError before it touches the page; no alert is
    shown, the hidden input is not written, no copy is attempted. *)
Theorem share_click_fails_silently origin env st :
  ~ (Latin1 (ToString (htmlCode st)) /\ Latin1 (ToString (cssCode st))
     /\ Latin1 (ToString (jsCode st))) ->
  shareClick origin env st = (Throw InvalidCharacterError, []).
Proof.
  intro H. unfold shareClick. now rewrite generateShareUrl_not_Latin1.
Qed.

Lemma share_click_fails_silently_example :
  shareClick (lit "https://example.com")
    {| ref_ready := true; clipboard_api := true; writeText_fulfilled := true |}
    (run [] [EditJs (Str [0x4F60; 0x597D])])
  = (Throw InvalidCharacterError, []).
Proof.
  apply share_click_fails_silently.
  intros [_ [_ H]]. apply latin1b_spec in H. vm_compute in H. discriminate H.
Defined.

Lemma no_space_forallb s :
  forallb (fun c => negb (c =? 32)) s = true -> Forall (fun c => c <> 32) s.
Proof.
  intro H. apply Forall_forall. intros c Hc.
  rewrite forallb_forall in H. specialize (H c Hc).
  apply negb_true_iff in H. now apply N.eqb_neq.
Qed.

Lemma toUpperCase_char_inj c1 c2 :
  is_upper c1 = false -> is_upper c2 = false ->
  toUpperCase_char c1 = toUpperCase_char c2 -> c1 = c2.
Proof.
  unfold toUpperCase_char, is_upper, is_lower, in_range.
  cmp; intros U1 U2 E; try discriminate U1; try discriminate U2; lia.
Qed.

Lemma space_capitals_filter s :
  Forall (fun c => c <> 32) s ->
  filter (fun c => negb (c =? 32)) (space_capitals s) = s.
Proof.
  induction 1 as [|c s Hc _ IH]; [reflexivity|].
  unfold space_capitals in *. cbn [flat_map].
  apply N.eqb_neq in Hc.
  destruct (is_upper c); cbn [app filter N.eqb Pos.eqb negb]; rewrite Hc;
    cbn [negb]; now rewrite IH.
Qed.

Lemma toUpperCase_char_not_space c : c <> 32 -> toUpperCase_char c <> 32.
Proof.
  unfold toUpperCase_char, is_lower, in_range. cmp; lia.
Qed.

Lemma option_label_filter key :
  Forall (fun c => c <> 32) key ->
  filter (fun c => negb (c =? 32)) (option_label key)
  = map toUpperCase_char (charAt0 key) ++ slice1 key.
Proof.
  intro HF. unfold option_label. rewrite filter_app.
  destruct key as [|c rest]; [reflexivity|].
  inversion HF as [|? ? Hc Hrest]; subst.
  cbn [charAt0 slice1 map filter].
  apply toUpperCase_char_not_space, N.eqb_neq in Hc. rewrite Hc. cbn [negb app].
  now rewrite space_capitals_filter.
Qed.

(** X15: the labels of the template select tell the templates apart: two
    keys without spaces whose first character is ASCII and not a capital
    (as the three keys of the registry are) have the same label only if they
    are the same key. *)
Theorem option_label_injective key1 key2 :
  plain_key key1 -> plain_key key2 ->
  option_label key1 = option_label key2 -> key1 = key2.
Proof.
  intros [S1 F1] [S2 F2] H.
  apply (f_equal (filter (fun c => negb (c =? 32)))) in H.
  rewrite !option_label_filter in H by assumption.
  destruct key1 as [|c1 r1], key2 as [|c2 r2]; cbn [charAt0 slice1 map app] in H;
    try discriminate H; [reflexivity|].
  injection H as Hc Hr. subst r2. f_equal.
  apply toUpperCase_char_inj; tauto.
Qed.

Lemma option_label_injective_example : lit "simpleCard" = lit "simpleCard".
Proof.
  apply (option_label_injective (lit "simpleCard") (lit "simpleCard")).
  - split; [apply no_space_forallb; vm_compute; reflexivity
           | vm_compute; split; reflexivity].
  - split; [apply no_space_forallb; vm_compute; reflexivity
           | vm_compute; split; reflexivity].
  - reflexivity.
Defined.

(** X16: the label of a key loses no character of it: for a key without
    spaces that begins with an ASCII character, the label without its
    spaces is the key with its first character in upper case, and the label
    is longer than the key by one space for every capital after the first
    character. *)
Theorem option_label_keeps_key key :
  Forall (fun c => c <> 32) key ->
  match key with
  | [] => True
  | c :: _ => c < 128
  end ->
  filter (fun c => negb (c =? 32)) (option_label key)
  = map toUpperCase_char (charAt0 key) ++ slice1 key
  /\ length (option_label key)
     = (length key + length (filter is_upper (slice1 key)))%nat.
Proof.
  intros HF _. split; [now apply option_label_filter|].
  unfold option_label. rewrite length_app, length_map.
  assert (Hs : forall s : list N,
             @length N (space_capitals s)
             = (@length N s + @length N (filter is_upper s))%nat).
  { induction s as [|c s IH]; [reflexivity|].
    change (space_capitals (c :: s))
      with ((if is_upper c then [32; c] else [c]) ++ space_capitals s).
    rewrite length_app, IH. cbn [filter].
    destruct (is_upper c); cbn [length]; lia. }
  unfold code_unit in *. rewrite Hs. destruct key; cbn [charAt0 slice1 length]; lia.
Qed.

Lemma option_label_keeps_key_example :
  filter (fun c => negb (c =? 32)) (option_label (lit "flexboxExample"))
  = lit "FlexboxExample"
  /\ length (option_label (lit "flexboxExample")) = 15%nat.
Proof.
  apply (option_label_keeps_key (lit "flexboxExample")).
  - apply no_space_forallb. vm_compute. reflexivity.
  - vm_compute. reflexivity.
Defined.

Lemma fullSrcDoc_parts h c j :
  fullSrcDoc h c j
  = doc_head ++ ToString c ++ doc_before_markup ++ ToString h
      ++ doc_before_script ++ ToString j ++ doc_tail.
Proof.
  unfold fullSrcDoc, doc_head, doc_before_markup, doc_before_script, doc_tail.
  cbn [lines]. rewrite <- !app_assoc. reflexivity.
Qed.

(** X17: an edit of one buffer always shows in the composed document: two
    triples that differ in the text of exactly one buffer never compose to
    the same document. *)
Theorem composed_document_shows_every_edit h c j h' c' j' :
  (fullSrcDoc h c j = fullSrcDoc h' c j -> ToString h = ToString h')
  /\ (fullSrcDoc h c j = fullSrcDoc h c' j -> ToString c = ToString c')
  /\ (fullSrcDoc h c j = fullSrcDoc h c j' -> ToString j = ToString j').
Proof.
  rewrite !fullSrcDoc_parts. repeat split; intro H.
  - rewrite !(app_assoc doc_head), !(app_assoc (doc_head ++ _)) in H.
    apply app_inv_head in H. now apply app_inv_tail in H.
  - apply app_inv_head in H. now apply app_inv_tail in H.
  - do 5 apply app_inv_head in H. now apply app_inv_tail in H.
Qed.

End Page_facts.
